(** * book_fetcher: a shallow embedding of [book_fetcher.py]

    The development follows the source file top to bottom: the pydantic
    models [Book] and [OpenLibraryResponse], the formatter [JsonFormatter],
    and the methods of [BookFetcher].  Python values are modelled as the
    interpreter has them: a [str] is a sequence of Unicode code points, an
    [int] is an unbounded integer, [None] is the [None] of [option], a
    [dict] is an insertion-ordered list of bindings. *)

From Stdlib Require Import String Ascii.
From Stdlib Require Import List ZArith NArith Bool Lia.
From Stdlib Require Import Decimal DecimalPos DecimalZ.
Import ListNotations.

Set Implicit Arguments.
Set Warnings "-register-all".

Local Open Scope N_scope.

(** ** Python strings *)

Definition codepoint := N.
Definition pystr := list codepoint.

(** A literal of the source text, code point by code point. *)
Definition lit (s : string) : pystr :=
  map N_of_ascii (list_ascii_of_string s).

(** [bool(s)] of a string: the empty string is falsy. *)
Definition str_bool (s : pystr) : bool :=
  match s with
  | [] => false
  | _ :: _ => true
  end.

Fixpoint startswith (s prefix : pystr) {struct prefix} : bool :=
  match prefix with
  | [] => true
  | p :: ps =>
      match s with
      | [] => false
      | c :: cs => (c =? p) && startswith cs ps
      end
  end.

(** [needle in hay] on strings. *)
Fixpoint str_contains (hay needle : pystr) : bool :=
  startswith hay needle
  || match hay with
     | [] => false
     | _ :: rest => str_contains rest needle
     end.

Fixpoint str_eqb (a b : pystr) : bool :=
  match a, b with
  | [], [] => true
  | x :: a', y :: b' => (x =? y) && str_eqb a' b'
  | _, _ => false
  end.

(** What [str.lower] does to a code point of the ASCII range. *)
Definition ascii_lower (c : codepoint) : codepoint :=
  if (65 <=? c) && (c <=? 90) then c + 32 else c.

Definition is_ascii (s : pystr) : Prop := Forall (fun c => c < 128) s.

(** ** The interpreter's library functions the program calls

    [str.lower] is the Unicode lower-casing of the interpreter and the
    lax-mode integer coercions are pydantic's; [float] is the type of the
    non-integer JSON numbers.  They are taken as they are, and every
    result below holds for all of them. *)
Class PyRuntime : Type := {
  float : Type;
  (** [str.lower] *)
  lower : pystr -> pystr;
  (** pydantic, lax mode: a float without fractional part is an [int] *)
  float_as_int : float -> option Z;
  (** pydantic, lax mode: a numeric string is an [int] *)
  str_as_int : pystr -> option Z;
  (** the [json] module: the text of a float ([float.__repr__], or the
      names of NaN and the infinities) and [float(literal)] *)
  floatstr : float -> pystr;
  float_of_literal : pystr -> float
}.

(** On a string of ASCII code points [str.lower] maps [A-Z] to [a-z] and
    leaves the rest. *)
Definition LowerOnAscii `{PyRuntime} : Prop :=
  forall s, is_ascii s -> lower s = map ascii_lower s.

(** ** class Book(BaseModel) *)

Record Book : Type := mkBook {
  title : pystr;
  author_names : list pystr;
  first_publish_year : option Z;
  publisher : list pystr;
  language : list pystr;
  number_of_pages : option Z
}.

(** ** Values decoded from JSON

    What [response.json()] hands to the models and what [model_dump] hands
    to [json.dumps]: [None], [bool], [int], [float], [str], [list] and
    [dict].  A [dict] keeps its bindings in insertion order and holds a key
    once; [dict_get] reads the binding of a key. *)

Section Values.
Context `{PyRuntime}.

Inductive jsonval : Type :=
| JNull
| JBool (b : bool)
| JInt (z : Z)
| JFloat (f : float)
| JStr (s : pystr)
| JArr (items : list jsonval)
| JObj (items : list (pystr * jsonval)).

Definition dict : Type := list (pystr * jsonval).

Fixpoint dict_get (d : dict) (k : pystr) : option jsonval :=
  match d with
  | [] => None
  | (k', v) :: d' => if str_eqb k' k then Some v else dict_get d' k
  end.

(** [d[k] = v]: an existing key keeps its place, a new one goes last. *)
Fixpoint dict_set (d : dict) (k : pystr) (v : jsonval) : dict :=
  match d with
  | [] => [(k, v)]
  | (k', v') :: d' =>
      if str_eqb k' k then (k', v) :: d' else (k', v') :: dict_set d' k v
  end.

End Values.

(** ** Exceptions and results *)

Inductive exception : Type :=
| TransportError                 (* httpx: the request did not complete *)
| HTTPStatusError (status : Z)   (* httpx: raise_for_status *)
| JSONDecodeError                (* json: the body is not JSON *)
| ValidationError.               (* pydantic *)

Inductive result (A : Type) : Type :=
| Ok (a : A)
| Raise (e : exception).
Arguments Ok {A} a.
Arguments Raise {A} e.

Notation "x <- a ;; b" :=
  (match a with
   | Some x => b
   | None => None
   end) (at level 61, a at next level, right associativity).

(** ** class Book(BaseModel), class OpenLibraryResponse(BaseModel)

    pydantic validation of decoded JSON in its default (lax) mode, for the
    field types the two models declare.  [model_config] sets
    [populate_by_name]: a field with an alias is read under the alias, and
    under its own name when the alias is not a key of the input.  Keys that
    name no field are not looked at. *)

Section Validation.
Context `{PyRuntime}.

(** [str]: a JSON string and nothing else. *)
Definition validate_str (v : jsonval) : option pystr :=
  match v with
  | JStr s => Some s
  | _ => None
  end.

(** [int]: an integer; in lax mode also a bool, a float without
    fractional part and a numeric string. *)
Definition validate_int (v : jsonval) : option Z :=
  match v with
  | JInt z => Some z
  | JBool b => Some (if b then 1 else 0)%Z
  | JFloat f => float_as_int f
  | JStr s => str_as_int s
  | _ => None
  end.

(** [int | None] *)
Definition validate_optional_int (v : jsonval) : option (option Z) :=
  match v with
  | JNull => Some None
  | _ => z <- validate_int v ;; Some (Some z)
  end.

Fixpoint validate_each {A} (validate : jsonval -> option A)
    (items : list jsonval) : option (list A) :=
  match items with
  | [] => Some []
  | v :: rest =>
      a <- validate v ;;
      l <- validate_each validate rest ;;
      Some (a :: l)
  end.

(** [list[T]]: a JSON array whose elements all validate as [T]. *)
Definition validate_list {A} (validate : jsonval -> option A)
    (v : jsonval) : option (list A) :=
  match v with
  | JArr items => validate_each validate items
  | _ => None
  end.

(** The input value of a field: by alias, else by name. *)
Definition lookup_alias (d : dict) (alias name : pystr) : option jsonval :=
  match dict_get d alias with
  | Some v => Some v
  | None => dict_get d name
  end.

(** A field without default is required; a field with a default takes it
    when the input has no value for it, and the default is not
    validated. *)
Definition required {A} (found : option jsonval)
    (validate : jsonval -> option A) : option A :=
  match found with
  | Some v => validate v
  | None => None
  end.

Definition with_default {A} (default : A) (found : option jsonval)
    (validate : jsonval -> option A) : option A :=
  match found with
  | Some v => validate v
  | None => Some default
  end.

Definition validate_Book (v : jsonval) : option Book :=
  match v with
  | JObj d =>
      t <- required (dict_get d (lit "title")) validate_str ;;
      a <- with_default []
             (lookup_alias d (lit "author_name") (lit "author_names"))
             (validate_list validate_str) ;;
      y <- with_default None
             (dict_get d (lit "first_publish_year"))
             validate_optional_int ;;
      p <- with_default []
             (dict_get d (lit "publisher"))
             (validate_list validate_str) ;;
      l <- with_default []
             (dict_get d (lit "language"))
             (validate_list validate_str) ;;
      n <- with_default None
             (lookup_alias d (lit "number_of_pages_median")
                (lit "number_of_pages"))
             validate_optional_int ;;
      Some (mkBook t a y p l n)
  | _ => None
  end.

(** [Book.model_validate(data)] *)
Definition Book_model_validate (data : jsonval) : result Book :=
  match validate_Book data with
  | Some b => Ok b
  | None => Raise ValidationError
  end.

Record OpenLibraryResponse : Type := mkResponse {
  num_found : Z;
  docs : list Book
}.

Definition validate_OpenLibraryResponse (v : jsonval)
    : option OpenLibraryResponse :=
  match v with
  | JObj d =>
      n <- required (lookup_alias d (lit "numFound") (lit "num_found"))
             validate_int ;;
      ds <- required (dict_get d (lit "docs"))
              (validate_list validate_Book) ;;
      Some (mkResponse n ds)
  | _ => None
  end.

(** [OpenLibraryResponse.model_validate(data)] *)
Definition OpenLibraryResponse_model_validate (data : jsonval)
    : result OpenLibraryResponse :=
  match validate_OpenLibraryResponse data with
  | Some r => Ok r
  | None => Raise ValidationError
  end.

End Validation.

(** ** json.dumps

    The encoder of the [json] module as [JsonFormatter.format] calls it:
    [ensure_ascii=False], an integer [indent], the separators [","] and
    [": "] that an indent selects. *)

Section Encoder.
Context `{PyRuntime}.

(** A hexadecimal digit of [format(i, "04x")]. *)
Definition hex_digit (n : N) : codepoint :=
  if n <? 10 then 48 + n else 87 + n.

(** [ESCAPE_DCT]: the quote, the backslash and the control characters. *)
Definition escape_char (c : codepoint) : pystr :=
  if c =? 34 then [92; 34]
  else if c =? 92 then [92; 92]
  else if c =? 8 then [92; 98]
  else if c =? 12 then [92; 102]
  else if c =? 10 then [92; 110]
  else if c =? 13 then [92; 114]
  else if c =? 9 then [92; 116]
  else if c <? 32 then
    [92; 117; 48; 48; hex_digit (c / 16); hex_digit (c mod 16)]
  else [c].

Definition encode_basestring (s : pystr) : pystr :=
  34 :: flat_map escape_char s ++ [34].

Fixpoint uint_chars (u : Decimal.uint) : pystr :=
  match u with
  | Nil => []
  | D0 u => 48 :: uint_chars u
  | D1 u => 49 :: uint_chars u
  | D2 u => 50 :: uint_chars u
  | D3 u => 51 :: uint_chars u
  | D4 u => 52 :: uint_chars u
  | D5 u => 53 :: uint_chars u
  | D6 u => 54 :: uint_chars u
  | D7 u => 55 :: uint_chars u
  | D8 u => 56 :: uint_chars u
  | D9 u => 57 :: uint_chars u
  end.

(** The decimal text of an integer: its digits, a minus sign for a
    negative number. *)
Definition decimal (z : Z) : pystr :=
  match Z.to_int z with
  | Pos u => uint_chars u
  | Neg u => 45 :: uint_chars u
  end.

(** [sys.get_int_max_str_digits()]: the interpreter's default limit on the
    conversions between [int] and [str]. *)
Definition int_max_str_digits : nat := 4300.

(** The number of digits of an integer; the sign does not count. *)
Definition int_digits (z : Z) : nat :=
  match Z.to_int z with
  | Pos u => length (uint_chars u)
  | Neg u => length (uint_chars u)
  end.

(** [int.__repr__]: the decimal text; [None] stands for the [ValueError]
    of an integer of more digits than the limit. *)
Definition int_repr (z : Z) : option pystr :=
  if (int_digits z <=? int_max_str_digits)%nat then Some (decimal z)
  else None.

(** [sep.join(chunks)] *)
Definition join (sep : pystr) (chunks : list pystr) : pystr :=
  match chunks with
  | [] => []
  | chunk :: rest => chunk ++ flat_map (fun x => sep ++ x) rest
  end.

(** ['\n' + _indent * _current_indent_level] *)
Definition newline_indent (_indent : pystr) (level : nat) : pystr :=
  10 :: concat (repeat _indent level).

(** The chunks of the items of a list or dict, in order: an exception
    raised for an item ends the encoding, and there is no text. *)
Fixpoint collect (chunks : list (option pystr)) : option (list pystr) :=
  match chunks with
  | [] => Some []
  | chunk :: rest =>
      c <- chunk ;;
      cs <- collect rest ;;
      Some (c :: cs)
  end.

(** [_iterencode], its chunks joined; [None] stands for the [ValueError]
    of [int.__repr__]. *)
Fixpoint iterencode (_indent : pystr) (level : nat) (o : jsonval)
    : option pystr :=
  match o with
  | JStr s => Some (encode_basestring s)
  | JNull => Some (lit "null")
  | JBool true => Some (lit "true")
  | JBool false => Some (lit "false")
  | JInt z => int_repr z
  | JFloat f => Some (floatstr f)
  | JArr [] => Some (lit "[]")
  | JArr lst =>
      let separator := 44 :: newline_indent _indent (S level) in
      chunks <- collect (map (iterencode _indent (S level)) lst) ;;
      Some ([91] ++ newline_indent _indent (S level)
            ++ join separator chunks
            ++ newline_indent _indent level ++ [93])
  | JObj [] => Some (lit "{}")
  | JObj dct =>
      let item_separator := 44 :: newline_indent _indent (S level) in
      chunks <- collect
                  (map (fun item =>
                          value <- iterencode _indent (S level) (snd item) ;;
                          Some (encode_basestring (fst item) ++ lit ": "
                                ++ value)) dct) ;;
      Some ([123] ++ newline_indent _indent (S level)
            ++ join item_separator chunks
            ++ newline_indent _indent level ++ [125])
  end.

(** [json.dumps(obj, indent=indent, ensure_ascii=False)]; a negative
    indent repeats the space no times. *)
Definition dumps (obj : jsonval) (indent : Z) : option pystr :=
  iterencode (repeat 32 (Z.to_nat indent)) 0 obj.

(** The text of a value whose integers are all within the limit: what
    [_iterencode] yields when no conversion raises. *)
Fixpoint json_text (_indent : pystr) (level : nat) (o : jsonval) : pystr :=
  match o with
  | JStr s => encode_basestring s
  | JNull => lit "null"
  | JBool true => lit "true"
  | JBool false => lit "false"
  | JInt z => decimal z
  | JFloat f => floatstr f
  | JArr [] => lit "[]"
  | JArr lst =>
      let separator := 44 :: newline_indent _indent (S level) in
      [91] ++ newline_indent _indent (S level)
      ++ join separator (map (json_text _indent (S level)) lst)
      ++ newline_indent _indent level ++ [93]
  | JObj [] => lit "{}"
  | JObj dct =>
      let item_separator := 44 :: newline_indent _indent (S level) in
      [123] ++ newline_indent _indent (S level)
      ++ join item_separator
           (map (fun item =>
                   encode_basestring (fst item) ++ lit ": "
                   ++ json_text _indent (S level) (snd item)) dct)
      ++ newline_indent _indent level ++ [125]
  end.

End Encoder.

(** ** json.loads

    The decoder of the [json] module in its default configuration
    ([strict], no hooks).  A scan returns the decoded value and the text
    after it; [None] stands for [JSONDecodeError], or for the [ValueError]
    of an integer literal of more digits than the interpreter's limit. *)

Notation "' p <- a ;; b" :=
  (match a with
   | Some p => b
   | None => None
   end) (at level 61, p pattern, a at next level, right associativity).

Section Decoder.
Context `{PyRuntime}.

(** [WHITESPACE]: space, tab, line feed, carriage return. *)
Definition is_ws (c : codepoint) : bool :=
  (c =? 32) || (c =? 9) || (c =? 10) || (c =? 13).

Fixpoint skip_ws (s : pystr) : pystr :=
  match s with
  | [] => []
  | c :: rest => if is_ws c then skip_ws rest else s
  end.

Definition is_digit (c : codepoint) : bool := (48 <=? c) && (c <=? 57).

Definition hex_value (c : codepoint) : option N :=
  if is_digit c then Some (c - 48)
  else if (97 <=? c) && (c <=? 102) then Some (c - 87)
  else if (65 <=? c) && (c <=? 70) then Some (c - 55)
  else None.

(** [_decode_uXXXX]: four hexadecimal digits. *)
Definition decode_uXXXX (h1 h2 h3 h4 : codepoint) : option N :=
  a <- hex_value h1 ;;
  b <- hex_value h2 ;;
  c <- hex_value h3 ;;
  d <- hex_value h4 ;;
  Some (((a * 16 + b) * 16 + c) * 16 + d).

(** [BACKSLASH]: the character an escape letter stands for. *)
Definition backslash (esc : codepoint) : option codepoint :=
  if esc =? 34 then Some 34
  else if esc =? 92 then Some 92
  else if esc =? 47 then Some 47
  else if esc =? 98 then Some 8
  else if esc =? 102 then Some 12
  else if esc =? 110 then Some 10
  else if esc =? 114 then Some 13
  else if esc =? 116 then Some 9
  else None.

Definition is_high_surrogate (uni : N) : bool :=
  (55296 <=? uni) && (uni <=? 56319).
Definition is_low_surrogate (uni : N) : bool :=
  (56320 <=? uni) && (uni <=? 57343).

(** [scanstring(s, end)], from the character after the opening quote: the
    decoded string and the text after the closing quote. *)
Fixpoint scanstring (s : pystr) : option (pystr * pystr) :=
  match s with
  | [] => None
  | c :: r =>
      if c =? 34 then Some ([], r)
      else if c =? 92 then
        match r with
        | [] => None
        | esc :: r1 =>
            if esc =? 117 then
              match r1 with
              | h1 :: h2 :: h3 :: h4 :: r2 =>
                  uni <- decode_uXXXX h1 h2 h3 h4 ;;
                  let single :=
                    '(chunks, r') <- scanstring r2 ;;
                    Some (uni :: chunks, r') in
                  if is_high_surrogate uni then
                    match r2 with
                    | b :: u :: r3 =>
                        if (b =? 92) && (u =? 117) then
                          match r3 with
                          | l1 :: l2 :: l3 :: l4 :: r4 =>
                              uni2 <- decode_uXXXX l1 l2 l3 l4 ;;
                              if is_low_surrogate uni2 then
                                '(chunks, r') <- scanstring r4 ;;
                                Some (65536 + ((uni - 55296) * 1024
                                               + (uni2 - 56320)) :: chunks,
                                      r')
                              else single
                          | _ => None
                          end
                        else single
                    | _ => single
                    end
                  else single
              | _ => None
              end
            else
              char <- backslash esc ;;
              '(chunks, r') <- scanstring r1 ;;
              Some (char :: chunks, r')
        end
      else if c <? 32 then None
      else
        '(chunks, r') <- scanstring r ;;
        Some (c :: chunks, r')
  end.

Fixpoint span_digits (s : pystr) : pystr * pystr :=
  match s with
  | [] => ([], [])
  | c :: rest =>
      if is_digit c then
        let (ds, r) := span_digits rest in (c :: ds, r)
      else ([], s)
  end.

(** [NUMBER_RE], group by group: an optional minus sign and either a
    single 0 or a digit 1-9 followed by digits; then the optional fraction,
    a dot and digits; then the optional exponent, e or E, a sign and
    digits. *)
Definition match_integer (s : pystr) : option (pystr * pystr) :=
  let (sign, s1) :=
    match s with
    | c :: r => if c =? 45 then ([45], r) else ([], s)
    | [] => ([], s)
    end in
  match s1 with
  | [] => None
  | d :: r =>
      if d =? 48 then Some (sign ++ [48], r)
      else if is_digit d then
        let (ds, r') := span_digits r in Some (sign ++ d :: ds, r')
      else None
  end.

Definition match_frac (s : pystr) : option (pystr * pystr) :=
  match s with
  | dot :: d :: r =>
      if (dot =? 46) && is_digit d then
        let (ds, r') := span_digits r in Some (dot :: d :: ds, r')
      else None
  | _ => None
  end.

Definition match_exp (s : pystr) : option (pystr * pystr) :=
  match s with
  | e :: r =>
      if (e =? 101) || (e =? 69) then
        let (sign, r1) :=
          match r with
          | c :: r' => if (c =? 45) || (c =? 43) then ([c], r') else ([], r)
          | [] => ([], r)
          end in
        match span_digits r1 with
        | ([], _) => None
        | (ds, r2) => Some (e :: sign ++ ds, r2)
        end
      else None
  | [] => None
  end.

Fixpoint digits_uint (ds : pystr) : Decimal.uint :=
  match ds with
  | [] => Nil
  | c :: rest =>
      let u := digits_uint rest in
      if c =? 48 then D0 u else if c =? 49 then D1 u
      else if c =? 50 then D2 u else if c =? 51 then D3 u
      else if c =? 52 then D4 u else if c =? 53 then D5 u
      else if c =? 54 then D6 u else if c =? 55 then D7 u
      else if c =? 56 then D8 u else D9 u
  end.

(** The number of digits of the text of the first group; the sign does
    not count. *)
Definition literal_digits (integer : pystr) : nat :=
  match integer with
  | c :: ds => if c =? 45 then length ds else length integer
  | [] => O
  end.

(** The integer that the text of the first group denotes. *)
Definition literal_value (integer : pystr) : Z :=
  match integer with
  | c :: ds =>
      if c =? 45 then Z.of_int (Neg (digits_uint ds))
      else Z.of_int (Pos (digits_uint integer))
  | [] => 0%Z
  end.

(** [int(integer)] of the text of the first group; [None] stands for the
    [ValueError] of a literal of more digits than the limit. *)
Definition parse_int (integer : pystr) : option Z :=
  if (literal_digits integer <=? int_max_str_digits)%nat
  then Some (literal_value integer)
  else None.

(** What matching a number at the start of a text gives: no match of
    [NUMBER_RE], a number and the text after it, or the [ValueError] of
    [int(integer)]. *)
Inductive number_match : Type :=
| NoNumber
| Number (value : jsonval) (rest : pystr)
| IntTooLong.

Definition match_number (s : pystr) : number_match :=
  match match_integer s with
  | None => NoNumber
  | Some (integer, r) =>
      let (frac, r1) :=
        match match_frac r with
        | Some (frac, r1) => (frac, r1)
        | None => ([], r)
        end in
      let (exp, r2) :=
        match match_exp r1 with
        | Some (exp, r2) => (exp, r2)
        | None => ([], r1)
        end in
      if str_bool frac || str_bool exp
      then Number (JFloat (float_of_literal (integer ++ frac ++ exp))) r2
      else
        match parse_int integer with
        | Some n => Number (JInt n) r2
        | None => IntTooLong
        end
  end.

(** [dict(pairs)]: a later pair of the same key replaces the value. *)
Definition dict_of_pairs (pairs : list (pystr * jsonval)) : dict :=
  fold_left (fun d item => dict_set d (fst item) (snd item)) pairs [].

(** [scan_once], [JSONArray] and [JSONObject].  The three call one another
    along the nesting of the text; [fuel] bounds the calls. *)
Fixpoint scan_once (fuel : nat) (s : pystr) {struct fuel}
    : option (jsonval * pystr) :=
  match fuel with
  | O => None
  | S fuel' =>
      match s with
      | [] => None
      | nextchar :: r =>
          if nextchar =? 34 then
            '(str, r') <- scanstring r ;; Some (JStr str, r')
          else if nextchar =? 123 then
            match skip_ws r with
            | c :: r' =>
                if c =? 125 then Some (JObj [], r')
                else if c =? 34 then
                  '(pairs, r'') <- JSONObject_pairs fuel' r' ;;
                  Some (JObj (dict_of_pairs pairs), r'')
                else None
            | [] => None
            end
          else if nextchar =? 91 then
            match skip_ws r with
            | c :: r' =>
                if c =? 93 then Some (JArr [], r')
                else
                  '(values, r'') <- JSONArray_values fuel' (c :: r') ;;
                  Some (JArr values, r'')
            | [] => None
            end
          else if startswith s (lit "null") then Some (JNull, skipn 4 s)
          else if startswith s (lit "true") then Some (JBool true, skipn 4 s)
          else if startswith s (lit "false") then Some (JBool false, skipn 5 s)
          else
            match match_number s with
            | Number value r' => Some (value, r')
            | IntTooLong => None
            | NoNumber =>
                if startswith s (lit "NaN")
                then Some (JFloat (float_of_literal (lit "nan")), skipn 3 s)
                else if startswith s (lit "Infinity")
                then Some (JFloat (float_of_literal (lit "inf")), skipn 8 s)
                else if startswith s (lit "-Infinity")
                then Some (JFloat (float_of_literal (lit "-inf")), skipn 9 s)
                else None
            end
      end
  end

(** The loop of [JSONArray], from the first character of a value. *)
with JSONArray_values (fuel : nat) (s : pystr) {struct fuel}
    : option (list jsonval * pystr) :=
  match fuel with
  | O => None
  | S fuel' =>
      '(value, r) <- scan_once fuel' s ;;
      match skip_ws r with
      | c :: r' =>
          if c =? 93 then Some ([value], r')
          else if c =? 44 then
            '(values, r'') <- JSONArray_values fuel' (skip_ws r') ;;
            Some (value :: values, r'')
          else None
      | [] => None
      end
  end

(** The loop of [JSONObject], from the character after the quote that
    opens a key. *)
with JSONObject_pairs (fuel : nat) (s : pystr) {struct fuel}
    : option (list (pystr * jsonval) * pystr) :=
  match fuel with
  | O => None
  | S fuel' =>
      '(key, r) <- scanstring s ;;
      match skip_ws r with
      | colon :: r1 =>
          if colon =? 58 then
            '(value, r2) <- scan_once fuel' (skip_ws r1) ;;
            match skip_ws r2 with
            | c :: r3 =>
                if c =? 125 then Some ([(key, value)], r3)
                else if c =? 44 then
                  match skip_ws r3 with
                  | q :: r4 =>
                      if q =? 34 then
                        '(pairs, r5) <- JSONObject_pairs fuel' r4 ;;
                        Some ((key, value) :: pairs, r5)
                      else None
                  | [] => None
                  end
                else None
            | [] => None
            end
          else None
      | [] => None
      end
  end.

(** [json.loads(s)]: no byte order mark, one value between optional
    whitespace, nothing after it. *)
Definition loads (s : pystr) : option jsonval :=
  if startswith s [65279] then None
  else
    '(obj, r) <- scan_once (S (length s)) (skip_ws s) ;;
    match skip_ws r with
    | [] => Some obj
    | _ :: _ => None
    end.

End Decoder.

(** ** class JsonFormatter(BookFormatter) *)

Section Formatter.
Context `{PyRuntime}.

Record JsonFormatter : Type := mkJsonFormatter {
  indent : Z
}.

(** [JsonFormatter()]: the default indent. *)
Definition JsonFormatter_default : JsonFormatter := mkJsonFormatter 2.

Definition dump_optional_int (x : option Z) : jsonval :=
  match x with
  | Some z => JInt z
  | None => JNull
  end.

(** [book.model_dump(by_alias=False)]: the fields under their own names,
    in the order of their declaration. *)
Definition model_dump (book : Book) : jsonval :=
  JObj [(lit "title", JStr (title book));
        (lit "author_names", JArr (map JStr (author_names book)));
        (lit "first_publish_year", dump_optional_int (first_publish_year book));
        (lit "publisher", JArr (map JStr (publisher book)));
        (lit "language", JArr (map JStr (language book)));
        (lit "number_of_pages", dump_optional_int (number_of_pages book))].

(** [None] stands for the [ValueError] that [json.dumps] raises. *)
Definition format (self : JsonFormatter) (books : list Book)
    : option pystr :=
  let books_data := JArr (map model_dump books) in
  dumps books_data (indent self).

Definition get_file_extension (self : JsonFormatter) : pystr := lit ".json".

End Formatter.

(** ** class BookFetcher: fetch_books

    The outside world of [fetch_books] is the HTTP client.  A computation
    yields the calls it made on it, in order, and returns or raises. *)

Section Fetch.
Context `{PyRuntime}.

(** An [httpx.Response]: its status and what [response.json()] returns,
    [None] when the body does not decode. *)
Record Response : Type := mkHttp {
  status_code : Z;
  response_json : option jsonval
}.

(** The server behind [client.get(url, params)]: a response, or [None]
    when the request does not complete (connection failure, timeout). *)
Definition server : Type := pystr -> pystr -> Z -> option Response.

Inductive event : Type :=
| ClientOpen                                  (* with httpx.Client(...) *)
| Get (url : pystr) (q : pystr) (limit : Z)   (* client.get *)
| DecodeBody                                  (* response.json() *)
| ClientClose.                                (* leaving the with block *)

Definition io (A : Type) : Type := (list event * result A)%type.

Definition ret {A} (a : A) : io A := ([], Ok a).
Definition raise {A} (e : exception) : io A := ([], Raise e).
Definition bind {A B} (m : io A) (k : A -> io B) : io B :=
  match m with
  | (t, Ok a) => let (t', r) := k a in (t ++ t', r)
  | (t, Raise e) => (t, Raise e)
  end.
Definition lift {A} (r : result A) : io A := ([], r).

(** [with httpx.Client(...) as client: body]: the client is closed on
    every way out of the block. *)
Definition with_client {A} (body : io A) : io A :=
  let (t, r) := body in (ClientOpen :: t ++ [ClientClose], r).

Definition client_get (srv : server) (url q : pystr) (limit : Z)
    : io Response :=
  ([Get url q limit],
   match srv url q limit with
   | Some response => Ok response
   | None => Raise TransportError
   end).

(** httpx: a status outside 200..299 raises. *)
Definition is_success (status : Z) : bool :=
  ((200 <=? status) && (status <=? 299))%Z.

Definition raise_for_status (response : Response) : io unit :=
  if is_success (status_code response) then ret tt
  else raise (HTTPStatusError (status_code response)).

Definition json_of (response : Response) : io jsonval :=
  ([DecodeBody],
   match response_json response with
   | Some data => Ok data
   | None => Raise JSONDecodeError
   end).

Definition BASE_URL : pystr := lit "https://openlibrary.org/search.json".

Definition fetch_books (srv : server) (query : pystr) (limit : Z)
    : io (list Book) :=
  bind (with_client
          (bind (client_get srv BASE_URL query limit) (fun response =>
           bind (raise_for_status response) (fun _ =>
           json_of response))))
       (fun data =>
  bind (lift (OpenLibraryResponse_model_validate data)) (fun parsed =>
  ret (docs parsed))).

End Fetch.

(** ** class BookFetcher: filter_books *)

Section Filter.
Context `{PyRuntime}.

Definition filter_books (books : list Book)
    (title_contains : option pystr) (min_year : option Z) : list Book :=
  let result := books in
  let result :=
    match title_contains with
    | Some t =>
        if str_bool t then
          let keyword := lower t in
          filter (fun b => str_contains (lower (title b)) keyword) result
        else result
    | None => result
    end in
  let result :=
    match min_year with
    | Some y =>
        filter (fun b =>
                  match first_publish_year b with
                  | Some fy => (fy >=? y)%Z
                  | None => false
                  end) result
    | None => result
    end in
  result.

(** The two criteria of the specification, as predicates on a record:
    the year is known and not before [y]; the lower-cased title contains
    the lower-cased query. *)
Definition year_ok (y : Z) (b : Book) : bool :=
  match first_publish_year b with
  | Some fy => (y <=? fy)%Z
  | None => false
  end.

Definition title_ok (q : pystr) (b : Book) : bool :=
  str_contains (lower (title b)) (lower q).

End Filter.

(** The records of the filtering scenario. *)
Definition python_crash_course : Book :=
  mkBook (lit "Python Crash Course") [] (Some 2015%Z) [] [] None.
Definition learning_go : Book :=
  mkBook (lit "Learning Go") [] (Some 2009%Z) [] [] None.
Definition python_tricks : Book :=
  mkBook (lit "Python Tricks") [] (Some 2005%Z) [] [] None.
Definition scenario_books : list Book :=
  [python_crash_course; learning_go; python_tricks].

(** A runtime for the examples: [str.lower] lower-cases the ASCII letters
    and leaves every other code point, which is what the interpreter does
    on ASCII strings; a float is kept as the text of its literal, and the
    coercions of floats and strings to [int] are refused. *)
Definition ascii_runtime : PyRuntime := {|
  float := pystr;
  lower := map ascii_lower;
  float_as_int := fun _ => None;
  str_as_int := fun _ => None;
  floatstr := fun f => f;
  float_of_literal := fun literal => literal
|}.

(** The input keys [Book] reads, and inputs for the validation examples. *)
Definition Book_keys : list pystr :=
  [lit "title"; lit "author_name"; lit "author_names";
   lit "first_publish_year"; lit "publisher"; lit "language";
   lit "number_of_pages_median"; lit "number_of_pages"].

Definition raw_by_alias : @dict ascii_runtime :=
  [(lit "title", JStr (lit "Dune"));
   (lit "author_name", JArr [JStr (lit "Frank Herbert")]);
   (lit "number_of_pages_median", JInt 612%Z);
   (lit "ratings_count", JInt 3%Z)].

Definition raw_by_name : @dict ascii_runtime :=
  [(lit "title", JStr (lit "Dune"));
   (lit "author_names", JArr [JStr (lit "Frank Herbert")]);
   (lit "number_of_pages", JInt 612%Z)].

Definition server_500 : @server ascii_runtime :=
  fun _ _ _ => Some (mkHttp 500%Z (Some (JObj []))).

Definition server_no_numFound : @server ascii_runtime :=
  fun _ _ _ => Some (mkHttp 200%Z (Some (JObj [(lit "docs", JArr [])]))).

Definition dune : Book :=
  mkBook (lit "Dune") [lit "Frank Herbert"] None [] [] (Some 612%Z).

(** A text between double quotes, and the text [json.dumps] gives for the
    list [[dune]] with indent 2. *)
Definition quoted (s : string) : pystr := 34 :: lit s ++ [34].

Definition dune_json : pystr :=
  lit "[" ++ [10]
  ++ lit "  {" ++ [10]
  ++ lit "    " ++ quoted "title" ++ lit ": " ++ quoted "Dune" ++ lit "," ++ [10]
  ++ lit "    " ++ quoted "author_names" ++ lit ": [" ++ [10]
  ++ lit "      " ++ quoted "Frank Herbert" ++ [10]
  ++ lit "    ]," ++ [10]
  ++ lit "    " ++ quoted "first_publish_year" ++ lit ": null," ++ [10]
  ++ lit "    " ++ quoted "publisher" ++ lit ": []," ++ [10]
  ++ lit "    " ++ quoted "language" ++ lit ": []," ++ [10]
  ++ lit "    " ++ quoted "number_of_pages" ++ lit ": 612" ++ [10]
  ++ lit "  }" ++ [10]
  ++ lit "]".

(** A year of 4301 digits, a one and 4300 zeros, and a record with it. *)
Definition long_year : Z := Z.of_int (Pos (D1 (Nat.iter 4300 D0 Nil))).

Definition far_future : Book :=
  mkBook (lit "Far Future") [] (Some long_year) [] [] None.

(** ** What the decoder reads back

    Notions for the statement that the encoder's text decodes to the value
    it was made from: how the text of a value begins and what follows it,
    and the text the loops of the decoder are entered with. *)

Section Decoding.
Context `{PyRuntime}.

(** What may follow the text of a number: nothing that continues it. *)
Definition number_end (rest : pystr) : bool :=
  match rest with
  | [] => true
  | c :: _ =>
      negb (is_digit c) && negb (c =? 46) && negb (c =? 101) && negb (c =? 69)
  end.

(** The first character of a value's text: no whitespace, no closing
    bracket, no byte order mark. *)
Definition starts_value (t : pystr) : bool :=
  match t with
  | [] => false
  | c :: _ => negb (is_ws c) && negb (c =? 93) && negb (c =? 65279)
  end.

(** What follows a value in the encoder's text: the end, a comma or a
    line feed. *)
Definition value_end (rest : pystr) : bool :=
  match rest with
  | [] => true
  | c :: _ => (c =? 44) || (c =? 10)
  end.

(** Chunks between separators, up to the closing text. *)
Fixpoint chain (sep close chunk : pystr) (more : list pystr) : pystr :=
  chunk ++
  match more with
  | [] => close
  | next :: more' => sep ++ chain sep close next more'
  end.

(** An integer field is within the interpreter's limit on conversions;
    a record's two integer fields are. *)
Definition int_fits (x : option Z) : bool :=
  match x with
  | Some z => (int_digits z <=? int_max_str_digits)%nat
  | None => true
  end.

Definition ints_fit (book : Book) : bool :=
  int_fits (first_publish_year book) && int_fits (number_of_pages book).

(** The text of a list of records whose integers are within the limit. *)
Definition format_text (self : JsonFormatter) (books : list Book) : pystr :=
  json_text (repeat 32 (Z.to_nat (indent self))) 0
    (JArr (map model_dump books)).

(** With an indent of [n] spaces, the text of [v] at nesting [level]
    starts a value, and the decoder reads [v] from it and stops behind it,
    given fuel beyond its length. *)
Definition decodes (n level : nat) (v : jsonval) : Prop :=
  starts_value (json_text (repeat 32 n) level v) = true /\
  forall fuel rest,
    (length (json_text (repeat 32%N n) level v) < fuel)%nat ->
    value_end rest = true ->
    scan_once fuel (json_text (repeat 32 n) level v ++ rest) = Some (v, rest).

(** The text of a non-empty array from its first element on. *)
Definition array_loop (n level : nat) (x : jsonval) (more : list jsonval)
    : pystr :=
  chain (44 :: newline_indent (repeat 32 n) (S level))
    (newline_indent (repeat 32 n) level ++ [93])
    (json_text (repeat 32 n) (S level) x)
    (map (json_text (repeat 32 n) (S level)) more).

(** The text of a pair, and the same after the quote that opens its key. *)
Definition pair_text (n level : nat) (item : pystr * jsonval) : pystr :=
  encode_basestring (fst item) ++ lit ": "
  ++ json_text (repeat 32 n) (S level) (snd item).

Definition pair_body (n level : nat) (item : pystr * jsonval) : pystr :=
  flat_map escape_char (fst item)
  ++ 34 :: 58 :: 32 :: json_text (repeat 32 n) (S level) (snd item).

(** The text of a non-empty object after the quote of its first key. *)
Definition object_loop (n level : nat) (item : pystr * jsonval)
    (more : list (pystr * jsonval)) : pystr :=
  chain (44 :: newline_indent (repeat 32 n) (S level))
    (newline_indent (repeat 32 n) level ++ [125])
    (pair_body n level item) (map (pair_text n level) more).

End Decoding.

(** ** Further notions for the properties of the code *)

(** [l1] is [l2] with some elements left out, the others in their order. *)
Inductive subseq {A : Type} : list A -> list A -> Prop :=
| subseq_nil : subseq [] []
| subseq_keep (x : A) (l1 l2 : list A) :
    subseq l1 l2 -> subseq (x :: l1) (x :: l2)
| subseq_drop (x : A) (l1 l2 : list A) :
    subseq l1 l2 -> subseq l1 (x :: l2).

(** The text fields of a record. *)
Definition texts (b : Book) : list pystr :=
  title b :: author_names b ++ publisher b ++ language b.

(** [t] occurs in [u]. *)
Definition part (t u : pystr) : Prop := exists pre post, u = pre ++ t ++ post.

(** The characters of [s] that the encoder writes as they are have [P]. *)
Definition literal_ok (P : codepoint -> Prop) (s : pystr) : Prop :=
  forall c, In c s -> 32 <= c -> P c.

(** ** Writing a text file: Path.write_text(content, encoding="utf-8")

    A byte is a number below 256.  The host gives the line separator of
    the platform and tells which paths can be opened for writing (the
    directory exists, access is granted); the files are the bytes under
    each path, a path standing for the file it names.  Once a file is open,
    writing to it goes through. *)

Definition is_surrogate (c : codepoint) : bool :=
  (55296 <=? c) && (c <=? 57343).

(** The UTF-8 codec in its strict mode: one to four bytes for a code
    point, none for a surrogate. *)
Definition utf8_char (c : codepoint) : option (list N) :=
  if c <? 128 then Some [c]
  else if c <? 2048 then Some [192 + c / 64; 128 + c mod 64]
  else if c <? 65536 then
    if is_surrogate c then None
    else Some [224 + c / 4096; 128 + (c / 64) mod 64; 128 + c mod 64]
  else if c <? 1114112 then
    Some [240 + c / 262144; 128 + (c / 4096) mod 64;
          128 + (c / 64) mod 64; 128 + c mod 64]
  else None.

Fixpoint utf8_encode (s : pystr) : option (list N) :=
  match s with
  | [] => Some []
  | c :: rest =>
      bytes <- utf8_char c ;;
      more <- utf8_encode rest ;;
      Some (bytes ++ more)
  end.

Record host : Type := mkHost {
  linesep : pystr;
  openable : pystr -> bool
}.

Definition files : Type := pystr -> option (list N).

Definition set_file (fs : files) (path : pystr) (bytes : list N) : files :=
  fun p => if str_eqb p path then Some bytes else fs p.

(** Text mode with [newline=None]: a line feed is written as the line
    separator of the platform. *)
Definition translate_newlines (h : host) (data : pystr) : pystr :=
  flat_map (fun c => if c =? 10 then linesep h else [c]) data.

Inductive write_exception : Type :=
| FormatRaised         (* raised by [format]: no text to write *)
| OSError              (* the file cannot be opened *)
| UnicodeEncodeError.  (* the text does not encode *)

(** Opening for writing creates the file or empties it; the text is encoded
    as a whole before any byte is written; the file is closed on every way
    out.  The result is the files afterwards and the exception raised, if
    any. *)
Definition write_text (h : host) (fs : files) (path : pystr) (data : pystr)
    : files * option write_exception :=
  if openable h path then
    match utf8_encode (translate_newlines h data) with
    | Some bytes => (set_file fs path bytes, None)
    | None => (set_file fs path [], Some UnicodeEncodeError)
    end
  else (fs, Some OSError).

(** ** class BookFormatter(ABC)

    A formatter is an object with the two abstract methods; [write_to_file]
    is the method the base class gives to all of them.  [format] gives a
    text or raises ([None]); an exception of [format] leaves
    [write_to_file] before the file is opened. *)

Module BookFormatter.

Record t : Type := make {
  format : list Book -> option pystr;
  get_file_extension : pystr
}.

Definition write_to_file (self : t) (books : list Book) (filepath : pystr)
    (h : host) (fs : files) : files * option write_exception :=
  match format self books with
  | Some content => write_text h fs filepath content
  | None => (fs, Some FormatRaised)
  end.

End BookFormatter.

(** ** class BookFetcher: the constructor, save_books; main *)

Section Saving.
Context `{PyRuntime}.

(** A [JsonFormatter] as the [BookFormatter] it is. *)
Definition JsonFormatter_object (self : JsonFormatter) : BookFormatter.t :=
  BookFormatter.make (format self) (get_file_extension self).

Record BookFetcher : Type := mkBookFetcher {
  formatter : BookFormatter.t
}.

(** [BookFetcher(formatter)]: [formatter or JsonFormatter()]. *)
Definition BookFetcher_init (formatter : option BookFormatter.t)
    : BookFetcher :=
  mkBookFetcher
    match formatter with
    | Some f => f
    | None => JsonFormatter_object JsonFormatter_default
    end.

Definition save_books (self : BookFetcher) (books : list Book)
    (output_path : pystr) (h : host) (fs : files)
    : files * option write_exception :=
  BookFormatter.write_to_file (formatter self) books output_path h fs.

(** What a run of [main] leaves: the lines printed, the calls made on the
    HTTP client, the files, and the exception that ended it, if any. *)
Inductive main_exception : Type :=
| FetchRaised (e : exception)
| SaveRaised (e : write_exception).

Record run : Type := mkRun {
  stdout : list pystr;
  requests : list event;
  files_after : files;
  raised : option main_exception
}.

(** [str(n)] of a length in an f-string.  A list holds fewer than [2^63]
    items: the text has at most 19 digits, and the conversion does not
    raise. *)
Definition str_len {A} (l : list A) : pystr := decimal (Z.of_nat (length l)).

Definition main (h : host) (srv : server) (fs : files) : run :=
  let fetcher :=
    BookFetcher_init (Some (JsonFormatter_object (mkJsonFormatter 2))) in
  let out := [lit "Fetching books from Open Library API..."] in
  match fetch_books srv (lit "python programming") 50 with
  | (calls, Raise e) => mkRun out calls fs (Some (FetchRaised e))
  | (calls, Ok books) =>
      let out := out ++ [lit "Found " ++ str_len books ++ lit " books"] in
      let filtered :=
        filter_books books (Some (lit "python")) (Some 2010%Z) in
      let out :=
        out ++ [lit "After filtering: " ++ str_len filtered ++ lit " books"] in
      let output_file := lit "filtered_books.json" in
      match save_books fetcher filtered output_file h fs with
      | (fs', Some e) => mkRun out calls fs' (Some (SaveRaised e))
      | (fs', None) =>
          mkRun (out ++ [lit "Results written to " ++ output_file])
                calls fs' None
      end
  end.

End Saving.

(** Servers, a host and files for the examples of the further
    properties. *)
Definition server_down : @server ascii_runtime := fun _ _ _ => None.

Definition server_html : @server ascii_runtime :=
  fun _ _ _ => Some (mkHttp 200%Z None).


Definition raw_null_publisher : @dict ascii_runtime :=
  [(lit "title", JStr (lit "Dune")); (lit "publisher", JNull)].

Definition posix : host := mkHost [10] (fun _ => true).

Definition no_files : files := fun _ => None.

(* ================================================================== *)
(** * Properties *)

(** ** Strings *)

Lemma startswith_spec (p s : pystr) :
  startswith s p = true <-> exists post, s = p ++ post.
Proof.
  revert s; induction p as [|c p IH]; intros s; simpl.
  - split; [intros _; now exists s | reflexivity].
  - destruct s as [|d s].
    + split; [discriminate | intros [post E]; discriminate].
    + rewrite andb_true_iff, N.eqb_eq, IH. split.
      * intros [-> [post ->]]. now exists post.
      * intros [post E]. injection E as -> ->. split; [reflexivity | now exists post].
Qed.

Lemma str_contains_spec (hay needle : pystr) :
  str_contains hay needle = true <->
  exists pre post, hay = pre ++ needle ++ post.
Proof.
  induction hay as [|c hay IH]; simpl.
  - rewrite orb_false_r, startswith_spec. split.
    + intros [post E]. now exists [], post.
    + intros [pre [post E]]. destruct pre; [now exists post | discriminate].
  - rewrite orb_true_iff, startswith_spec, IH. split.
    + intros [[post E] | [pre [post E]]].
      * now exists [], post.
      * exists (c :: pre), post. now rewrite E.
    + intros [pre [post E]]. destruct pre as [|d pre]; simpl in E.
      * left. now exists post.
      * right. injection E as _ E. now exists pre, post.
Qed.

Lemma ascii_runtime_lower : @LowerOnAscii ascii_runtime.
Proof. intros s _. reflexivity. Qed.

Ltac ascii_lit := unfold is_ascii; cbv [lit]; simpl; repeat constructor.

(** ** Lists *)

Lemma filter_twice {A} (f g : A -> bool) (l : list A) :
  filter g (filter f l) = filter (fun x => f x && g x) l.
Proof.
  induction l as [|x l IH]; simpl; [reflexivity|].
  destruct (f x); simpl; [destruct (g x)|]; now rewrite IH.
Qed.

Lemma filter_idem {A} (f : A -> bool) (l : list A) :
  filter f (filter f l) = filter f l.
Proof.
  rewrite filter_twice. apply filter_ext. intros x. now destruct (f x).
Qed.

(** ** filter_books *)

Section FilterProps.
Context `{PyRuntime}.

Lemma filter_books_title (books : list Book) (q : pystr) :
  q <> [] -> filter_books books (Some q) None = filter (title_ok q) books.
Proof. destruct q; [congruence | reflexivity]. Qed.

Lemma filter_books_year (books : list Book) tc (y : Z) :
  filter_books books tc (Some y) = filter (year_ok y) (filter_books books tc None).
Proof.
  unfold filter_books. apply filter_ext. intros b. unfold year_ok.
  destruct (first_publish_year b); [apply Z.geb_leb | reflexivity].
Qed.

End FilterProps.

Section FilterClaims.
Context `{PyRuntime}.

Lemma title_ok_spec (q : pystr) (b : Book) :
  title_ok q b = true <->
  exists pre post, lower (title b) = pre ++ lower q ++ post.
Proof. apply str_contains_spec. Qed.

Lemma year_ok_spec (y : Z) (b : Book) :
  year_ok y b = true <->
  exists fy, first_publish_year b = Some fy /\ (y <= fy)%Z.
Proof.
  unfold year_ok. destruct (first_publish_year b) as [fy|].
  - rewrite Z.leb_le. split.
    + intros Hle. now exists fy.
    + intros [fy' [E Hle]]. now injection E as ->.
  - split; [discriminate | intros [fy [E _]]; discriminate].
Qed.

(** C1. With a non-empty query and no year bound, [filter_books] keeps,
    in order, exactly the records whose lower-cased title contains the
    lower-cased query as a substring; two queries with the same
    lower-casing select the same records, and so do "Python" and
    "PYTHON". *)
Theorem filter_title_case_insensitive (Hlow : LowerOnAscii) :
  (forall (books : list Book) (q : pystr), q <> [] ->
     filter_books books (Some q) None = filter (title_ok q) books
     /\ (forall b, In b (filter_books books (Some q) None) <->
           In b books /\
           exists pre post, lower (title b) = pre ++ lower q ++ post)
     /\ (forall q', q' <> [] -> lower q' = lower q ->
           filter_books books (Some q') None
           = filter_books books (Some q) None))
  /\ (forall books : list Book,
        filter_books books (Some (lit "Python")) None
        = filter_books books (Some (lit "PYTHON")) None).
Proof.
  split.
  - intros books q Hq. split; [now apply filter_books_title|]. split.
    + intros b. rewrite filter_books_title, filter_In, title_ok_spec by assumption.
      reflexivity.
    + intros q' Hq' E. rewrite !filter_books_title by assumption.
      apply filter_ext. intros b. unfold title_ok. now rewrite E.
  - intros books. rewrite !filter_books_title by discriminate.
    apply filter_ext. intros b. unfold title_ok.
    rewrite (Hlow (lit "Python")), (Hlow (lit "PYTHON")) by ascii_lit.
    reflexivity.
Qed.

(** C2. With a year bound [y] and no title query, [filter_books] keeps,
    in order, exactly the records whose year is known and at least [y]:
    a record of year [y] itself stays, a record of unknown year goes
    (whatever the title query), and without a year bound a record of
    unknown year stays whenever its title passes. *)
Theorem filter_min_year_inclusive :
  forall (books : list Book) (y : Z),
    filter_books books None (Some y) = filter (year_ok y) books
    /\ (forall b, In b (filter_books books None (Some y)) <->
          In b books /\
          exists fy, first_publish_year b = Some fy /\ (y <= fy)%Z)
    /\ (forall b, In b books -> first_publish_year b = Some y ->
          In b (filter_books books None (Some y)))
    /\ (forall b tc, first_publish_year b = None ->
          ~ In b (filter_books books tc (Some y)))
    /\ (forall b, In b books -> first_publish_year b = None ->
          In b (filter_books books None None))
    /\ (forall b q, q <> [] -> In b books -> first_publish_year b = None ->
          title_ok q b = true -> In b (filter_books books (Some q) None)).
Proof.
  intros books y. split; [apply (filter_books_year books None y)|].
  split; [|split; [|split; [|split]]].
  - intros b. rewrite (filter_books_year books None y), filter_In, year_ok_spec.
    reflexivity.
  - intros b Hb Hy. rewrite (filter_books_year books None y), filter_In.
    split; [exact Hb|]. unfold year_ok. rewrite Hy. apply Z.leb_refl.
  - intros b tc Hy Hin. rewrite filter_books_year, filter_In in Hin.
    destruct Hin as [_ Hok]. unfold year_ok in Hok. rewrite Hy in Hok.
    discriminate.
  - intros b Hb _. exact Hb.
  - intros b q Hq Hb _ Hok. rewrite filter_books_title, filter_In by assumption.
    now split.
Qed.

(** C3. With a non-empty query and a year bound together, a record stays
    exactly when it passes both; on the three records of the scenario the
    query "python" with bound 2010 leaves "Python Crash Course" alone. *)
Theorem filter_both_is_conjunction (Hlow : LowerOnAscii) :
  (forall (books : list Book) (q : pystr) (y : Z), q <> [] ->
     filter_books books (Some q) (Some y)
     = filter (fun b => title_ok q b && year_ok y b) books
     /\ (forall b, In b (filter_books books (Some q) (Some y)) <->
           In b (filter_books books (Some q) None) /\
           In b (filter_books books None (Some y))))
  /\ filter_books scenario_books (Some (lit "python")) (Some 2010%Z)
     = [python_crash_course].
Proof.
  split.
  - intros books q y Hq.
    assert (E : filter_books books (Some q) (Some y)
                = filter (fun b => title_ok q b && year_ok y b) books).
    { rewrite filter_books_year, filter_books_title by assumption.
      apply filter_twice. }
    split; [exact E|]. intros b.
    rewrite E, (filter_books_year books None y), filter_books_title by assumption.
    rewrite !filter_In, andb_true_iff. simpl. tauto.
  - rewrite filter_books_year, filter_books_title by discriminate.
    unfold scenario_books, title_ok, python_crash_course, learning_go,
      python_tricks. simpl.
    rewrite (Hlow (lit "python")), (Hlow (lit "Python Crash Course")),
      (Hlow (lit "Learning Go")), (Hlow (lit "Python Tricks")) by ascii_lit.
    reflexivity.
Qed.

(** C4. Without criteria [filter_books] returns the list it was given,
    element for element and in the same order; an empty query is no
    criterion either. *)
Theorem filter_no_criteria_identity :
  forall books : list Book,
    filter_books books None None = books
    /\ filter_books books (Some []) None = books.
Proof. intros books. split; reflexivity. Qed.

(** C5. Filtering a second time with the same arguments changes
    nothing. *)
Theorem filter_idempotent :
  forall (books : list Book) (tc : option pystr) (my : option Z),
    filter_books (filter_books books tc my) tc my = filter_books books tc my.
Proof.
  intros books tc my.
  assert (T : forall l, filter_books (filter_books l tc None) tc None
                        = filter_books l tc None).
  { intros l. destruct tc as [[|c q]|]; try reflexivity.
    rewrite !filter_books_title by discriminate. apply filter_idem. }
  destruct my as [y|]; [|apply T].
  rewrite !filter_books_year.
  assert (C : forall l, filter_books (filter (year_ok y) l) tc None
                        = filter (year_ok y) (filter_books l tc None)).
  { intros l. destruct tc as [[|c q]|]; try reflexivity.
    rewrite !filter_books_title by discriminate.
    rewrite !filter_twice. apply filter_ext. intros b. apply andb_comm. }
  now rewrite C, T, filter_idem.
Qed.

End FilterClaims.

(** The statements above at the records of the scenario, with the runtime
    of the examples. *)
Lemma filter_title_case_insensitive_witness :
  @LowerOnAscii ascii_runtime /\ lit "go" <> [] /\
  filter_books (H := ascii_runtime) scenario_books (Some (lit "go")) None
  = [learning_go].
Proof.
  split; [exact ascii_runtime_lower|]. split; [discriminate|].
  destruct (@filter_title_case_insensitive ascii_runtime ascii_runtime_lower)
    as [Hq _].
  destruct (Hq scenario_books (lit "go")) as [E _]; [discriminate|].
  rewrite E. reflexivity.
Defined.

Lemma filter_min_year_inclusive_witness :
  In python_crash_course scenario_books
  /\ first_publish_year python_crash_course = Some 2015%Z
  /\ In python_crash_course
       (filter_books (H := ascii_runtime) scenario_books None (Some 2015%Z)).
Proof.
  split; [now left|]. split; [reflexivity|].
  destruct (@filter_min_year_inclusive ascii_runtime scenario_books 2015%Z)
    as [_ [_ [Hb _]]].
  apply Hb; [now left | reflexivity].
Defined.

Lemma filter_both_is_conjunction_witness :
  @LowerOnAscii ascii_runtime /\
  filter_books (H := ascii_runtime) scenario_books (Some (lit "python"))
    (Some 2010%Z) = [python_crash_course].
Proof.
  split; [exact ascii_runtime_lower|].
  exact (proj2 (@filter_both_is_conjunction ascii_runtime ascii_runtime_lower)).
Defined.

(** ** Validation *)

Ltac bind_inv H :=
  repeat match type of H with
    | match ?a with Some _ => _ | None => None end = Some _ =>
        let E := fresh "E" in destruct a eqn:E; [|discriminate H]
    end.


Section ValidationProps.
Context `{PyRuntime}.

Lemma validate_each_str (items : list jsonval) (l : list pystr) :
  validate_each validate_str items = Some l <-> items = map JStr l.
Proof.
  revert l; induction items as [|v items IH]; intros l; simpl.
  - split.
    + intros E. injection E as <-. reflexivity.
    + destruct l; [reflexivity | discriminate].
  - split.
    + intros E. bind_inv E. injection E as <-.
      destruct v; try discriminate. simpl in *. injection E0 as ->.
      f_equal. now apply IH.
    + destruct l as [|s l]; [discriminate|]. simpl. intros E.
      injection E as -> E. apply IH in E. now rewrite E.
Qed.

Lemma validate_list_str (v : jsonval) (l : list pystr) :
  validate_list validate_str v = Some l <-> v = JArr (map JStr l).
Proof.
  destruct v; simpl; try (split; [discriminate|discriminate]).
  rewrite validate_each_str. split; [now intros -> | intros E; now injection E].
Qed.

Lemma validate_each_In {A} (validate : jsonval -> option A) items x :
  In x items -> validate x = None -> validate_each validate items = None.
Proof.
  induction items as [|v items IH]; simpl; [tauto|].
  intros [->|Hin] Hx; [now rewrite Hx|].
  destruct (validate v); [|reflexivity]. now rewrite IH.
Qed.

Lemma model_validate_Ok (data : jsonval) (b : Book) :
  Book_model_validate data = Ok b <-> validate_Book data = Some b.
Proof.
  unfold Book_model_validate. destruct (validate_Book data).
  - split; intros E; injection E as ->; reflexivity.
  - split; discriminate.
Qed.

Lemma model_validate_Raise (data : jsonval) :
  validate_Book data = None <->
  Book_model_validate data = Raise ValidationError.
Proof.
  unfold Book_model_validate. destruct (validate_Book data).
  - split; discriminate.
  - split; reflexivity.
Qed.

Lemma envelope_Raise (data : jsonval) :
  validate_OpenLibraryResponse data = None ->
  OpenLibraryResponse_model_validate data = Raise ValidationError.
Proof. unfold OpenLibraryResponse_model_validate. now intros ->. Qed.

End ValidationProps.

Section ModelClaims.
Context `{PyRuntime}.

(** C6, as the code has it.  For an input mapping that validates into a
    record: [title], [first_publish_year], [publisher] and [language] are
    read under their own names; [author_names] is read under
    [author_name] and [number_of_pages] under [number_of_pages_median],
    and each of the two under its own name when the alias is not a key
    of the input; a sequence field is the empty list and an optional
    integer is [None] when the input has the field under no key that is
    read for it; keys that are never read do not matter. *)
Theorem validate_Book_fields :
  forall (d : dict) (b : Book),
    Book_model_validate (JObj d) = Ok b ->
    dict_get d (lit "title") = Some (JStr (title b))
    (* author_names: alias, else name, else the empty list *)
    /\ (forall v, dict_get d (lit "author_name") = Some v ->
          v = JArr (map JStr (author_names b)))
    /\ (forall v, dict_get d (lit "author_name") = None ->
          dict_get d (lit "author_names") = Some v ->
          v = JArr (map JStr (author_names b)))
    /\ (dict_get d (lit "author_name") = None ->
        dict_get d (lit "author_names") = None -> author_names b = [])
    (* number_of_pages: alias, else name, else None *)
    /\ (forall v, dict_get d (lit "number_of_pages_median") = Some v ->
          validate_optional_int v = Some (number_of_pages b))
    /\ (forall z, dict_get d (lit "number_of_pages_median") = Some (JInt z) ->
          number_of_pages b = Some z)
    /\ (forall v, dict_get d (lit "number_of_pages_median") = None ->
          dict_get d (lit "number_of_pages") = Some v ->
          validate_optional_int v = Some (number_of_pages b))
    /\ (dict_get d (lit "number_of_pages_median") = None ->
        dict_get d (lit "number_of_pages") = None ->
        number_of_pages b = None)
    (* the fields without alias *)
    /\ (forall v, dict_get d (lit "first_publish_year") = Some v ->
          validate_optional_int v = Some (first_publish_year b))
    /\ (dict_get d (lit "first_publish_year") = None ->
        first_publish_year b = None)
    /\ (forall v, dict_get d (lit "publisher") = Some v ->
          v = JArr (map JStr (publisher b)))
    /\ (dict_get d (lit "publisher") = None -> publisher b = [])
    /\ (forall v, dict_get d (lit "language") = Some v ->
          v = JArr (map JStr (language b)))
    /\ (dict_get d (lit "language") = None -> language b = [])
    (* other keys *)
    /\ (forall d' : dict,
          (forall k, In k Book_keys -> dict_get d' k = dict_get d k) ->
          Book_model_validate (JObj d') = Ok b).
Proof.
  intros d b Hv. apply model_validate_Ok in Hv.
  assert (Hext : forall d' : dict,
             (forall k, In k Book_keys -> dict_get d' k = dict_get d k) ->
             validate_Book (JObj d') = validate_Book (JObj d)).
  { intros d' Hk. unfold validate_Book, lookup_alias.
    rewrite !Hk by (unfold Book_keys; simpl; tauto). reflexivity. }
  pose proof Hv as Hv'.
  unfold validate_Book, required, with_default, lookup_alias in Hv.
  bind_inv Hv. injection Hv as <-. simpl.
  destruct (dict_get d (lit "title")) as [vt|]; [|discriminate].
  destruct vt; try discriminate. simpl in E. injection E as ->.
  split; [reflexivity|].
  destruct (dict_get d (lit "author_name")) as [va|].
  2: destruct (dict_get d (lit "author_names")) as [va'|].
  all: destruct (dict_get d (lit "number_of_pages_median")) as [vn|].
  all: try destruct (dict_get d (lit "number_of_pages")) as [vn'|].
  all: destruct (dict_get d (lit "first_publish_year")) as [vy|].
  all: destruct (dict_get d (lit "publisher")) as [vp|].
  all: destruct (dict_get d (lit "language")) as [vl|].
  all: repeat match goal with
         | E : validate_list validate_str _ = Some _ |- _ =>
             apply validate_list_str in E
         | E : Some _ = Some _ |- _ => injection E as <-
         end.
  all: repeat split; try discriminate; try reflexivity; try assumption.
  all: try (intros ? E'; injection E' as <-; assumption).
  all: try (intros ? _ E'; injection E' as <-; assumption).
  all: try (intros d' Hk; apply model_validate_Ok;
            rewrite (Hext d' Hk); exact Hv').
  all: intros z E'; injection E' as ->;
         match goal with
         | E : validate_optional_int (JInt _) = Some _ |- _ =>
             simpl in E; now injection E as <-
         end.
Qed.

End ModelClaims.

Lemma validate_Book_fields_witness :
  Book_model_validate (JObj raw_by_alias) = Ok dune
  /\ dict_get raw_by_alias (lit "title") = Some (JStr (title dune)).
Proof.
  split; [reflexivity|].
  exact (proj1 (@validate_Book_fields ascii_runtime raw_by_alias dune eq_refl)).
Defined.

(** C6 as it is worded fails: here the input has neither [author_name] nor
    [number_of_pages_median], and still [author_names] is not empty and
    [number_of_pages] is not [None], since both fields are given under
    their own names. *)
Lemma default_on_missing_alias_counterexample :
  dict_get raw_by_name (lit "author_name") = None
  /\ dict_get raw_by_name (lit "number_of_pages_median") = None
  /\ Book_model_validate (JObj raw_by_name) = Ok dune
  /\ author_names dune <> []
  /\ number_of_pages dune <> None.
Proof. repeat split; try reflexivity; discriminate. Qed.

Section FetchClaims.
Context `{PyRuntime}.

Lemma fetch_books_validation (srv : server) (q : pystr) (limit : Z)
    (status : Z) (data : jsonval) :
  srv BASE_URL q limit = Some (mkHttp status (Some data)) ->
  is_success status = true ->
  fetch_books srv q limit
  = ([ClientOpen; Get BASE_URL q limit; DecodeBody; ClientClose],
     match OpenLibraryResponse_model_validate data with
     | Ok parsed => Ok (docs parsed)
     | Raise e => Raise e
     end).
Proof.
  intros Hsrv Hok.
  unfold fetch_books, with_client, client_get, raise_for_status, json_of,
    bind, lift, ret. rewrite Hsrv. simpl. rewrite Hok. simpl.
  destruct (OpenLibraryResponse_model_validate data); reflexivity.
Qed.

(** C8. Validation of a record raises [ValidationError] when the input
    is no mapping, when [title] is absent and when it is not a string;
    validation of the envelope raises it when the input is no mapping,
    when [docs] is absent, when it is not an array, when one of its
    elements does not validate as a record, and when the count is absent
    or is no integer; and [fetch_books], on a successful response whose
    body decodes to a mapping without [docs], raises [ValidationError]
    and returns no record. *)
Theorem validation_rejects_missing_or_misshapen :
  (forall v : jsonval, (forall d, v <> JObj d) ->
     Book_model_validate v = Raise ValidationError)
  /\ (forall d : dict, dict_get d (lit "title") = None ->
        Book_model_validate (JObj d) = Raise ValidationError)
  /\ (forall (d : dict) v, dict_get d (lit "title") = Some v ->
        (forall s, v <> JStr s) ->
        Book_model_validate (JObj d) = Raise ValidationError)
  /\ (forall v : jsonval, (forall d, v <> JObj d) ->
        OpenLibraryResponse_model_validate v = Raise ValidationError)
  /\ (forall d : dict, dict_get d (lit "docs") = None ->
        OpenLibraryResponse_model_validate (JObj d) = Raise ValidationError)
  /\ (forall (d : dict) v, dict_get d (lit "docs") = Some v ->
        (forall items, v <> JArr items) ->
        OpenLibraryResponse_model_validate (JObj d) = Raise ValidationError)
  /\ (forall (d : dict) items x, dict_get d (lit "docs") = Some (JArr items) ->
        In x items -> Book_model_validate x = Raise ValidationError ->
        OpenLibraryResponse_model_validate (JObj d) = Raise ValidationError)
  /\ (forall d : dict,
        lookup_alias d (lit "numFound") (lit "num_found") = None ->
        OpenLibraryResponse_model_validate (JObj d) = Raise ValidationError)
  /\ (forall (d : dict) v,
        lookup_alias d (lit "numFound") (lit "num_found") = Some v ->
        validate_int v = None ->
        OpenLibraryResponse_model_validate (JObj d) = Raise ValidationError)
  /\ (forall (srv : server) q limit status (d : dict),
        srv BASE_URL q limit = Some (mkHttp status (Some (JObj d))) ->
        is_success status = true ->
        dict_get d (lit "docs") = None ->
        snd (fetch_books srv q limit) = Raise ValidationError).
Proof.
  assert (Hdocs : forall d : dict, dict_get d (lit "docs") = None ->
            OpenLibraryResponse_model_validate (JObj d) = Raise ValidationError).
  { intros d Hd. apply envelope_Raise. unfold validate_OpenLibraryResponse.
    rewrite Hd. simpl. now destruct (required _ _). }
  repeat split.
  - intros v Hv. apply model_validate_Raise.
    destruct v; try reflexivity. now destruct (Hv items).
  - intros d Hd. apply model_validate_Raise. unfold validate_Book.
    now rewrite Hd.
  - intros d v Hd Hv. apply model_validate_Raise. unfold validate_Book.
    rewrite Hd. destruct v; try reflexivity. now destruct (Hv s).
  - intros v Hv. apply envelope_Raise.
    destruct v; try reflexivity. now destruct (Hv items).
  - exact Hdocs.
  - intros d v Hd Hv. apply envelope_Raise. unfold validate_OpenLibraryResponse.
    rewrite Hd. destruct (required _ _); [|reflexivity].
    destruct v; try reflexivity. now destruct (Hv items).
  - intros d items x Hd Hin Hx. apply envelope_Raise.
    unfold validate_OpenLibraryResponse. rewrite Hd.
    destruct (required _ _); [|reflexivity]. simpl.
    apply model_validate_Raise in Hx.
    now rewrite (validate_each_In validate_Book items x Hin Hx).
  - intros d Hd. apply envelope_Raise. unfold validate_OpenLibraryResponse.
    now rewrite Hd.
  - intros d v Hd Hv. apply envelope_Raise. unfold validate_OpenLibraryResponse.
    rewrite Hd. simpl. now rewrite Hv.
  - intros srv q limit status d Hsrv Hok Hd.
    rewrite (fetch_books_validation srv q limit Hsrv Hok). simpl.
    now rewrite (Hdocs d Hd).
Qed.

(** C9. When the server answers with a status outside 200..299, such as
    500, [fetch_books] raises the HTTP status error to its caller after
    one request: the body is not decoded and no second request is
    made. *)
Theorem fetch_raises_on_non_success :
  forall (srv : server) (q : pystr) (limit : Z) (response : Response),
    srv BASE_URL q limit = Some response ->
    is_success (status_code response) = false ->
    fetch_books srv q limit
    = ([ClientOpen; Get BASE_URL q limit; ClientClose],
       Raise (HTTPStatusError (status_code response)))
    /\ ~ In DecodeBody (fst (fetch_books srv q limit))
    /\ is_success 500 = false.
Proof.
  intros srv q limit response Hsrv Hbad.
  assert (E : fetch_books srv q limit
              = ([ClientOpen; Get BASE_URL q limit; ClientClose],
                 Raise (HTTPStatusError (status_code response)))).
  { unfold fetch_books, with_client, client_get, raise_for_status, bind.
    rewrite Hsrv. simpl. rewrite Hbad. reflexivity. }
  split; [exact E|]. split; [|reflexivity].
  rewrite E. simpl. intros [F|[F|[F|[]]]]; discriminate.
Qed.

(** C10. The envelope needs its count: an input mapping with neither
    [numFound] nor [num_found] does not validate, and [fetch_books]
    raises [ValidationError] on such a body; the count is accepted under
    either key; and what [fetch_books] returns on a valid body is the
    record list alone. *)
Theorem envelope_requires_numFound :
  forall d : dict,
    dict_get d (lit "numFound") = None ->
    dict_get d (lit "num_found") = None ->
    OpenLibraryResponse_model_validate (JObj d) = Raise ValidationError
    /\ (forall (srv : server) q limit status,
          srv BASE_URL q limit = Some (mkHttp status (Some (JObj d))) ->
          is_success status = true ->
          snd (fetch_books srv q limit) = Raise ValidationError)
    /\ (forall (d' : dict) k z v ds,
          (k = lit "numFound" \/
           k = lit "num_found" /\ dict_get d' (lit "numFound") = None) ->
          dict_get d' k = Some (JInt z) ->
          dict_get d' (lit "docs") = Some v ->
          validate_list validate_Book v = Some ds ->
          OpenLibraryResponse_model_validate (JObj d') = Ok (mkResponse z ds)
          /\ forall (srv : server) q limit status,
               srv BASE_URL q limit = Some (mkHttp status (Some (JObj d'))) ->
               is_success status = true ->
               snd (fetch_books srv q limit) = Ok ds).
Proof.
  intros d Ha Hn.
  assert (E : OpenLibraryResponse_model_validate (JObj d)
              = Raise ValidationError).
  { apply envelope_Raise. unfold validate_OpenLibraryResponse, lookup_alias.
    now rewrite Ha, Hn. }
  split; [exact E|]. split.
  - intros srv q limit status Hsrv Hok.
    rewrite (fetch_books_validation srv q limit Hsrv Hok). now rewrite E.
  - intros d' k z v ds Hk Hz Hd Hv.
    assert (E' : OpenLibraryResponse_model_validate (JObj d')
                 = Ok (mkResponse z ds)).
    { unfold OpenLibraryResponse_model_validate,
        validate_OpenLibraryResponse, lookup_alias.
      destruct Hk as [->|[-> Hnone]].
      - rewrite Hz, Hd. simpl. now rewrite Hv.
      - rewrite Hnone, Hz, Hd. simpl. now rewrite Hv. }
    split; [exact E'|].
    intros srv q limit status Hsrv Hok.
    rewrite (fetch_books_validation srv q limit Hsrv Hok). now rewrite E'.
Qed.

End FetchClaims.

Lemma validation_rejects_missing_or_misshapen_witness :
  dict_get (H := ascii_runtime) [(lit "numFound", JInt 0%Z)] (lit "docs") = None
  /\ OpenLibraryResponse_model_validate (H := ascii_runtime)
       (JObj [(lit "numFound", JInt 0%Z)]) = Raise ValidationError.
Proof.
  split; [reflexivity|].
  destruct (@validation_rejects_missing_or_misshapen ascii_runtime)
    as (_ & _ & _ & _ & Hd & _).
  exact (Hd [(lit "numFound", JInt 0%Z)] eq_refl).
Defined.

Lemma fetch_raises_on_non_success_witness :
  server_500 BASE_URL (lit "python programming") 50%Z
  = Some (mkHttp 500%Z (Some (JObj [])))
  /\ is_success 500 = false
  /\ fetch_books server_500 (lit "python programming") 50%Z
     = ([ClientOpen; Get BASE_URL (lit "python programming") 50%Z; ClientClose],
        Raise (HTTPStatusError 500%Z)).
Proof.
  split; [reflexivity|]. split; [reflexivity|].
  exact (proj1 (@fetch_raises_on_non_success ascii_runtime server_500
                  (lit "python programming") 50%Z
                  (mkHttp 500%Z (Some (JObj []))) eq_refl eq_refl)).
Defined.

Lemma envelope_requires_numFound_witness :
  dict_get (H := ascii_runtime) [(lit "docs", JArr [])] (lit "numFound") = None
  /\ dict_get (H := ascii_runtime) [(lit "docs", JArr [])] (lit "num_found") = None
  /\ snd (fetch_books server_no_numFound (lit "python programming") 50%Z)
     = Raise ValidationError.
Proof.
  split; [reflexivity|]. split; [reflexivity|].
  destruct (@envelope_requires_numFound ascii_runtime
              [(lit "docs", JArr [])] eq_refl eq_refl) as [_ [Hf _]].
  exact (Hf server_no_numFound (lit "python programming") 50%Z 200%Z
           eq_refl eq_refl).
Defined.

(** ** The JSON text of a value decodes to the value *)

Lemma nzhead_no_D0 (u u' : Decimal.uint) : nzhead u <> D0 u'.
Proof. induction u; simpl; try discriminate; assumption. Qed.

Lemma to_uint_no_leading_zero (p : positive) (u : Decimal.uint) :
  Pos.to_uint p <> D0 u.
Proof.
  intros E.
  assert (N : unorm (Pos.to_uint p) = Pos.to_uint p).
  { rewrite <- (DecimalPos.Unsigned.to_of (Pos.to_uint p)).
    now rewrite DecimalPos.Unsigned.of_to. }
  rewrite E in N. unfold unorm in N.
  destruct (nzhead (D0 u)) eqn:Hz; try discriminate.
  - injection N as <-. apply (DecimalPos.Unsigned.to_uint_nonzero p).
    exact E.
  - now apply nzhead_no_D0 in Hz.
Qed.

Section DecoderProps.
Context `{PyRuntime}.

Lemma skip_ws_app (w x : pystr) :
  forallb is_ws w = true -> skip_ws (w ++ x) = skip_ws x.
Proof.
  induction w as [|c w IH]; simpl; [reflexivity|].
  rewrite andb_true_iff. intros [-> Hw]. now apply IH.
Qed.

Lemma newline_indent_ws (n level : nat) :
  forallb is_ws (newline_indent (repeat 32 n) level) = true.
Proof.
  assert (Hn : forallb is_ws (repeat 32 n) = true)
    by (induction n; [reflexivity | assumption]).
  unfold newline_indent. simpl. induction level as [|level IH]; simpl.
  - reflexivity.
  - now rewrite forallb_app, IH, Hn.
Qed.

Lemma skip_ws_newline_indent (n level : nat) (x : pystr) :
  skip_ws (newline_indent (repeat 32 n) level ++ x) = skip_ws x.
Proof. apply skip_ws_app, newline_indent_ws. Qed.

(** *** Strings *)

Lemma hex_value_digit (n : N) : n < 16 -> hex_value (hex_digit n) = Some n.
Proof.
  intros Hn. unfold hex_digit, hex_value, is_digit.
  destruct (n <? 10) eqn:E.
  - apply N.ltb_lt in E.
    replace ((48 <=? 48 + n) && (48 + n <=? 57)) with true.
    + f_equal. lia.
    + symmetry. apply andb_true_iff. split; apply N.leb_le; lia.
  - apply N.ltb_ge in E.
    replace ((48 <=? 87 + n) && (87 + n <=? 57)) with false.
    + replace ((97 <=? 87 + n) && (87 + n <=? 102)) with true.
      * f_equal. lia.
      * symmetry. apply andb_true_iff. split; apply N.leb_le; lia.
    + symmetry. apply andb_false_iff. right. apply N.leb_gt. lia.
Qed.

Lemma decode_control (c : codepoint) :
  c < 32 ->
  decode_uXXXX 48 48 (hex_digit (c / 16)) (hex_digit (c mod 16)) = Some c.
Proof.
  intros Hc. unfold decode_uXXXX.
  change (hex_value 48) with (Some 0).
  assert (Hq : c / 16 < 16) by (apply N.Div0.div_lt_upper_bound; lia).
  assert (Hr : c mod 16 < 16) by (apply N.mod_lt; lia).
  rewrite (hex_value_digit Hq), (hex_value_digit Hr). f_equal.
  pose proof (N.div_mod c 16). lia.
Qed.

Lemma scanstring_unicode (h1 h2 h3 h4 : codepoint) (r2 : pystr) (uni : N) :
  decode_uXXXX h1 h2 h3 h4 = Some uni ->
  is_high_surrogate uni = false ->
  scanstring (92 :: 117 :: h1 :: h2 :: h3 :: h4 :: r2)
  = '(chunks, r') <- scanstring r2 ;; Some (uni :: chunks, r').
Proof.
  intros Hd Hs. cbn [scanstring].
  change (92 =? 34) with false. change (92 =? 92) with true.
  change (117 =? 117) with true. cbv iota.
  now rewrite Hd, Hs.
Qed.

Lemma scanstring_plain (c : codepoint) (r : pystr) :
  (c =? 34) = false -> (c =? 92) = false -> (c <? 32) = false ->
  scanstring (c :: r) = '(chunks, r') <- scanstring r ;; Some (c :: chunks, r').
Proof. intros E1 E2 E3. cbn [scanstring]. now rewrite E1, E2, E3. Qed.

Lemma scanstring_escaped (s rest : pystr) :
  scanstring (flat_map escape_char s ++ 34 :: rest) = Some (s, rest).
Proof.
  induction s as [|c s IH]; [reflexivity|].
  cbn [flat_map]. rewrite <- app_assoc. unfold escape_char at 1.
  destruct (c =? 34) eqn:E34.
  { apply N.eqb_eq in E34. subst c. cbn. now rewrite IH. }
  destruct (c =? 92) eqn:E92.
  { apply N.eqb_eq in E92. subst c. cbn. now rewrite IH. }
  destruct (c =? 8) eqn:E8.
  { apply N.eqb_eq in E8. subst c. cbn. now rewrite IH. }
  destruct (c =? 12) eqn:E12.
  { apply N.eqb_eq in E12. subst c. cbn. now rewrite IH. }
  destruct (c =? 10) eqn:E10.
  { apply N.eqb_eq in E10. subst c. cbn. now rewrite IH. }
  destruct (c =? 13) eqn:E13.
  { apply N.eqb_eq in E13. subst c. cbn. now rewrite IH. }
  destruct (c =? 9) eqn:E9.
  { apply N.eqb_eq in E9. subst c. cbn. now rewrite IH. }
  destruct (c <? 32) eqn:E32.
  - apply N.ltb_lt in E32.
    change ([92; 117; 48; 48; hex_digit (c / 16); hex_digit (c mod 16)]
            ++ flat_map escape_char s ++ 34 :: rest)
      with (92 :: 117 :: 48 :: 48 :: hex_digit (c / 16) :: hex_digit (c mod 16)
            :: flat_map escape_char s ++ 34 :: rest).
    rewrite scanstring_unicode with (uni := c).
    + now rewrite IH.
    + now apply decode_control.
    + apply andb_false_iff. left. apply N.leb_gt. lia.
  - change ([c] ++ flat_map escape_char s ++ 34 :: rest)
      with (c :: flat_map escape_char s ++ 34 :: rest).
    now rewrite scanstring_plain, IH.
Qed.

End DecoderProps.
Lemma join_chain (sep close chunk : pystr) (more : list pystr) :
  join sep (chunk :: more) ++ close = chain sep close chunk more.
Proof.
  revert chunk; induction more as [|next more IH]; intros chunk.
  - simpl. now rewrite app_nil_r.
  - cbn [chain]. rewrite <- IH. simpl. now rewrite <- !app_assoc.
Qed.

Section NumberProps.
Context `{PyRuntime}.


(** *** Integers *)

Lemma span_digits_uint (u : Decimal.uint) (rest : pystr) :
  number_end rest = true ->
  span_digits (uint_chars u ++ rest) = (uint_chars u, rest).
Proof.
  intros Hr.
  assert (E : span_digits rest = ([], rest)).
  { destruct rest as [|c r]; [reflexivity|]. simpl in *.
    destruct (is_digit c); [discriminate | reflexivity]. }
  induction u; simpl; try exact E; now rewrite IHu.
Qed.

Lemma digits_uint_chars (u : Decimal.uint) : digits_uint (uint_chars u) = u.
Proof. induction u; simpl; try reflexivity; now rewrite IHu. Qed.

Lemma match_number_tail (integer rest : pystr) (z : Z) :
  number_end rest = true ->
  match_integer (integer ++ rest) = Some (integer, rest) ->
  parse_int integer = Some z ->
  match_number (integer ++ rest) = Number (JInt z) rest.
Proof.
  intros Hr Hi Hz. unfold match_number. rewrite Hi.
  assert (Hf : match_frac rest = None).
  { destruct rest as [|c [|d r]]; try reflexivity. simpl in *.
    destruct (c =? 46); [now rewrite !andb_false_r in Hr | reflexivity]. }
  assert (He : match_exp rest = None).
  { destruct rest as [|c r]; [reflexivity|]. simpl in *.
    destruct (c =? 101); [now rewrite !andb_false_r in Hr|].
    destruct (c =? 69); [now rewrite !andb_false_r in Hr | reflexivity]. }
  rewrite Hf, He. cbn. now rewrite Hz.
Qed.

Lemma literal_digits_decimal (z : Z) :
  literal_digits (decimal z) = int_digits z.
Proof.
  unfold decimal, int_digits.
  destruct (Z.to_int z) as [u|u]; [now destruct u | reflexivity].
Qed.

Lemma parse_int_decimal (z : Z) :
  parse_int (decimal z)
  = if (int_digits z <=? int_max_str_digits)%nat
    then Some (literal_value (decimal z)) else None.
Proof. unfold parse_int. now rewrite literal_digits_decimal. Qed.


Lemma match_integer_neg (ds r : pystr) :
  match_integer (ds ++ r) = Some (ds, r) ->
  (exists c t, ds = c :: t /\ is_digit c = true) ->
  match_integer (45 :: ds ++ r) = Some (45 :: ds, r).
Proof.
  intros Hm [c [t [-> Hc]]]. unfold match_integer in *.
  rewrite <- app_comm_cons in *.
  change (45 =? 45) with true. cbv iota.
  destruct (c =? 45) eqn:E45.
  { apply N.eqb_eq in E45. subst c. discriminate Hc. }
  destruct (c =? 48).
  - simpl in Hm. injection Hm as Ec Et Er. subst. now rewrite Er.
  - rewrite Hc in *. destruct (span_digits (t ++ r)).
    simpl in Hm. injection Hm as Et Er. now subst.
Qed.

Lemma decimal_integer (z : Z) (rest : pystr) :
  number_end rest = true ->
  match_integer (decimal z ++ rest) = Some (decimal z, rest)
  /\ literal_value (decimal z) = z
  /\ exists c t, decimal z = c :: t /\ ((c =? 45) || is_digit c) = true.
Proof.
  intros Hr.
  assert (P : forall p,
             match_integer (uint_chars (Pos.to_uint p) ++ rest)
             = Some (uint_chars (Pos.to_uint p), rest)
             /\ literal_value (uint_chars (Pos.to_uint p))
                = Z.of_int (Pos (Pos.to_uint p))
             /\ exists c t, uint_chars (Pos.to_uint p) = c :: t
                            /\ is_digit c = true).
  { intros p. pose proof (DecimalPos.Unsigned.to_uint_nonnil p) as Hnil.
    pose proof (@to_uint_no_leading_zero p) as Hz.
    destruct (Pos.to_uint p) as [|u|u|u|u|u|u|u|u|u|u];
      [now destruct Hnil | now destruct (Hz u) | ..].
    all: split; [|split].
    all: try (unfold match_integer; cbn [uint_chars app];
              cbn -[span_digits uint_chars];
              now rewrite span_digits_uint).
    all: try (unfold literal_value; cbn [uint_chars]; cbn -[digits_uint uint_chars Z.of_int];
              cbn [digits_uint]; cbn -[digits_uint uint_chars Z.of_int];
              now rewrite digits_uint_chars).
    all: cbn [uint_chars]; eexists; eexists; split; reflexivity. }
  unfold decimal. destruct z as [|p|p]; cbn [Z.to_int].
  - repeat split; try reflexivity. now exists 48, [].
  - destruct (P p) as [P1 [P2 [c [t [P3 P4]]]]]. split; [exact P1|]. split.
    + rewrite P2. apply (DecimalZ.of_to (Zpos p)).
    + exists c, t. split; [exact P3|]. now rewrite P4, orb_true_r.
  - destruct (P p) as [P1 [P2 [c [t [P3 P4]]]]]. split; [|split].
    + apply match_integer_neg; [exact P1 | now exists c, t].
    + unfold literal_value. change (45 =? 45) with true. cbv iota.
      rewrite digits_uint_chars. apply (DecimalZ.of_to (Zneg p)).
    + now exists 45, (uint_chars (Pos.to_uint p)).
Qed.



Lemma value_end_number_end (rest : pystr) :
  value_end rest = true -> number_end rest = true.
Proof.
  destruct rest as [|c r]; [reflexivity|]. simpl. rewrite orb_true_iff.
  intros [E|E]; apply N.eqb_eq in E; subst c; reflexivity.
Qed.

Lemma skip_ws_value (t rest : pystr) :
  starts_value t = true -> skip_ws (t ++ rest) = t ++ rest.
Proof.
  destruct t as [|c t]; [discriminate|]. simpl.
  destruct (is_ws c); [discriminate | reflexivity].
Qed.

Lemma startswith_head (c p : codepoint) (r ps : pystr) :
  (c =? p) = false -> startswith (c :: r) (p :: ps) = false.
Proof. intros E. simpl. now rewrite E. Qed.

Lemma scan_once_number (fuel : nat) (c : codepoint) (r : pystr) v rest :
  ((c =? 45) || is_digit c) = true ->
  match_number (c :: r) = Number v rest ->
  scan_once (S fuel) (c :: r) = Some (v, rest).
Proof.
  intros Hc Hm.
  assert (R : c = 45 \/ (48 <= c /\ c <= 57)).
  { apply orb_true_iff in Hc. destruct Hc as [E|E].
    - left. now apply N.eqb_eq.
    - right. unfold is_digit in E. apply andb_true_iff in E.
      now rewrite !N.leb_le in E. }
  assert (N : forall k, k < 45 \/ 57 < k -> (c =? k) = false).
  { intros k Hk. apply N.eqb_neq. lia. }
  cbn [scan_once].
  rewrite (N 34), (N 123), (N 91) by lia.
  replace (lit "null") with [110; 117; 108; 108] by reflexivity.
  replace (lit "true") with [116; 114; 117; 101] by reflexivity.
  replace (lit "false") with [102; 97; 108; 115; 101] by reflexivity.
  rewrite !startswith_head by (apply N; lia).
  now rewrite Hm.
Qed.

Lemma scan_once_int (fuel : nat) (z : Z) (rest : pystr) :
  (int_digits z <=? int_max_str_digits)%nat = true ->
  number_end rest = true ->
  scan_once (S fuel) (decimal z ++ rest) = Some (JInt z, rest).
Proof.
  intros Hz Hr.
  destruct (decimal_integer z rest Hr) as [Hi [Hp [c [t [E Hc]]]]].
  assert (Hv : parse_int (decimal z) = Some z).
  { rewrite parse_int_decimal, Hz. now rewrite Hp. }
  pose proof (match_number_tail Hr Hi Hv) as Hm.
  rewrite E in *. rewrite <- app_comm_cons in *.
  now apply scan_once_number.
Qed.

(** An integer of more digits than the limit: the decoder raises on the
    decimal text. *)
Lemma scan_once_int_too_long (fuel : nat) (z : Z) (rest : pystr) :
  (int_digits z <=? int_max_str_digits)%nat = false ->
  number_end rest = true ->
  scan_once (S fuel) (decimal z ++ rest) = None.
Proof.
  intros Hz Hr.
  destruct (decimal_integer z rest Hr) as [Hi [_ [c [t [E Hc]]]]].
  assert (Hm : match_number (decimal z ++ rest) = IntTooLong).
  { unfold match_number. rewrite Hi.
    assert (Hf : match_frac rest = None).
    { destruct rest as [|a [|d r]]; try reflexivity. simpl in *.
      destruct (a =? 46); [now rewrite !andb_false_r in Hr | reflexivity]. }
    assert (He : match_exp rest = None).
    { destruct rest as [|a r]; [reflexivity|]. simpl in *.
      destruct (a =? 101); [now rewrite !andb_false_r in Hr|].
      destruct (a =? 69); [now rewrite !andb_false_r in Hr | reflexivity]. }
    rewrite Hf, He. cbn. now rewrite parse_int_decimal, Hz. }
  rewrite E in *. rewrite <- app_comm_cons in *.
  assert (R : c = 45 \/ (48 <= c /\ c <= 57)).
  { apply orb_true_iff in Hc. destruct Hc as [E'|E'].
    - left. now apply N.eqb_eq.
    - right. unfold is_digit in E'. apply andb_true_iff in E'.
      now rewrite !N.leb_le in E'. }
  assert (N : forall k, k < 45 \/ 57 < k -> (c =? k) = false).
  { intros k Hk. apply N.eqb_neq. lia. }
  cbn [scan_once].
  rewrite (N 34), (N 123), (N 91) by lia.
  replace (lit "null") with [110; 117; 108; 108] by reflexivity.
  replace (lit "true") with [116; 114; 117; 101] by reflexivity.
  replace (lit "false") with [102; 97; 108; 115; 101] by reflexivity.
  rewrite !startswith_head by (apply N; lia).
  now rewrite Hm.
Qed.

Lemma scan_once_string (fuel : nat) (s rest : pystr) :
  scan_once (S fuel) (encode_basestring s ++ rest) = Some (JStr s, rest).
Proof.
  unfold encode_basestring. rewrite <- app_comm_cons, <- app_assoc.
  change ([34] ++ rest) with (34 :: rest).
  cbn [scan_once]. change (34 =? 34) with true. cbv iota.
  now rewrite scanstring_escaped.
Qed.

End NumberProps.

Section Roundtrip.
Context `{PyRuntime}.
Variable n : nat.

Local Abbreviation ind := (repeat 32 n).
Local Abbreviation nl level := (newline_indent (repeat 32 n) level).
Local Abbreviation enc level := (json_text (repeat 32 n) level).

Lemma decodes_str (level : nat) (s : pystr) : decodes n level (JStr s).
Proof.
  split; [reflexivity|]. intros [|fuel] rest Hf _; [lia|].
  apply scan_once_string.
Qed.

Lemma decodes_null (level : nat) : decodes n level JNull.
Proof.
  split; [reflexivity|]. intros [|fuel] rest Hf _; [lia|]. reflexivity.
Qed.

Lemma decodes_int (level : nat) (z : Z) :
  (int_digits z <=? int_max_str_digits)%nat = true ->
  decodes n level (JInt z).
Proof.
  intros Hz. split.
  - cbn [json_text].
    destruct (decimal_integer z [] eq_refl) as [_ [_ [c [t [E Hc]]]]].
    rewrite E. simpl. apply orb_true_iff in Hc. destruct Hc as [Hc|Hc].
    + apply N.eqb_eq in Hc. now subst c.
    + unfold is_digit in Hc. apply andb_true_iff in Hc.
      rewrite !N.leb_le in Hc. unfold is_ws.
      replace (c =? 32) with false by (symmetry; apply N.eqb_neq; lia).
      replace (c =? 9) with false by (symmetry; apply N.eqb_neq; lia).
      replace (c =? 10) with false by (symmetry; apply N.eqb_neq; lia).
      replace (c =? 13) with false by (symmetry; apply N.eqb_neq; lia).
      replace (c =? 93) with false by (symmetry; apply N.eqb_neq; lia).
      replace (c =? 65279) with false by (symmetry; apply N.eqb_neq; lia).
      reflexivity.
  - intros [|fuel] rest Hf Hr; [lia|]. cbn [json_text].
    apply scan_once_int; [exact Hz | now apply value_end_number_end].
Qed.

Lemma decodes_optional_int (level : nat) (x : option Z) :
  int_fits x = true -> decodes n level (dump_optional_int x).
Proof. destruct x; [apply decodes_int | intros _; apply decodes_null]. Qed.

Lemma json_text_array (level : nat) (x : jsonval) (more : list jsonval) :
  enc level (JArr (x :: more)) = 91 :: nl (S level) ++ array_loop n level x more.
Proof.
  unfold array_loop. rewrite <- join_chain. reflexivity.
Qed.

Lemma chain_length (sep close chunk : pystr) (more : list pystr) :
  (length chunk + length close <= length (chain sep close chunk more))%nat.
Proof.
  revert chunk; induction more as [|next more IH]; intros chunk; cbn [chain];
    rewrite !length_app; [lia|].
  specialize (IH next). lia.
Qed.

Lemma newline_indent_length (level : nat) : (1 <= length (nl level))%nat.
Proof. unfold newline_indent. simpl. lia. Qed.

Lemma skip_ws_nonws (c : codepoint) (x : pystr) :
  is_ws c = false -> skip_ws (c :: x) = c :: x.
Proof. intros E. simpl. now rewrite E. Qed.

Lemma starts_value_app (t u : pystr) :
  starts_value t = true -> starts_value (t ++ u) = true.
Proof. destruct t; [discriminate | trivial]. Qed.

Lemma starts_value_chain (sep close chunk : pystr) (more : list pystr) :
  starts_value chunk = true -> starts_value (chain sep close chunk more) = true.
Proof. destruct more; apply starts_value_app. Qed.

Lemma starts_value_head (t : pystr) :
  starts_value t = true ->
  exists c r, t = c :: r /\ is_ws c = false /\ (c =? 93) = false
              /\ (c =? 65279) = false.
Proof.
  destruct t as [|c r]; [discriminate|]. simpl. intros E.
  apply andb_true_iff in E. destruct E as [E E3].
  apply andb_true_iff in E. destruct E as [E1 E2].
  apply negb_true_iff in E1, E2, E3. now exists c, r.
Qed.

Local Arguments newline_indent : simpl never.

Lemma JSONArray_values_loop (level : nat) (more : list jsonval) :
  forall (x : jsonval) (fuel : nat) (rest : pystr),
    Forall (decodes n (S level)) (x :: more) ->
    (length (array_loop n level x more) < fuel)%nat ->
    JSONArray_values fuel (array_loop n level x more ++ rest)
    = Some (x :: more, rest).
Proof.
  induction more as [|y more IH]; intros x fuel rest HF Hf.
  - inversion HF as [|? ? [Hs Hd] HF']; subst.
    destruct fuel as [|fuel]; [lia|].
    unfold array_loop in *. cbn [map chain] in *.
    rewrite !length_app in Hf. pose proof (newline_indent_length level).
    rewrite <- app_assoc. cbn [JSONArray_values].
    rewrite Hd by (try reflexivity; lia).
    rewrite <- app_assoc, skip_ws_newline_indent. reflexivity.
  - inversion HF as [|? ? [Hs Hd] HF']; subst.
    destruct fuel as [|fuel]; [lia|].
    pose proof (IH y fuel rest HF') as IHy.
    unfold array_loop in *. cbn [map chain] in *.
    rewrite !length_app, length_cons in Hf.
    rewrite <- app_assoc. cbn [JSONArray_values].
    rewrite Hd by (try reflexivity; lia).
    rewrite <- app_assoc, <- app_comm_cons.
    rewrite (skip_ws_nonws 44) by reflexivity.
    change (44 =? 93) with false. change (44 =? 44) with true. cbv iota.
    rewrite skip_ws_newline_indent, skip_ws_value.
    + rewrite IHy by lia. reflexivity.
    + apply starts_value_chain. inversion HF' as [|? ? [Hs' _] _]. exact Hs'.
Qed.

Lemma decodes_arr (level : nat) (items : list jsonval) :
  Forall (decodes n (S level)) items -> decodes n level (JArr items).
Proof.
  intros HF. destruct items as [|x more].
  - split; [reflexivity|]. intros [|fuel] rest Hf _; [lia|]. reflexivity.
  - unfold decodes. rewrite json_text_array. split; [reflexivity|].
    intros [|fuel] rest Hf _; [lia|].
    rewrite length_cons, length_app in Hf.
    rewrite <- app_comm_cons, <- app_assoc. cbn [scan_once].
    change (91 =? 34) with false. change (91 =? 123) with false.
    change (91 =? 91) with true. cbv iota.
    rewrite skip_ws_newline_indent.
    assert (Hs : starts_value (array_loop n level x more) = true).
    { apply starts_value_chain. inversion HF as [|? ? [Hs _] _]. exact Hs. }
    rewrite skip_ws_value by exact Hs.
    assert (Hloop : JSONArray_values fuel (array_loop n level x more ++ rest)
                    = Some (x :: more, rest))
      by (apply JSONArray_values_loop; [assumption | lia]).
    destruct (starts_value_head _ Hs) as [c [r [E [_ [E93 _]]]]].
    rewrite E in *. rewrite <- app_comm_cons in *. now rewrite E93, Hloop.
Qed.

Lemma pair_text_body (level : nat) (item : pystr * jsonval) :
  pair_text n level item = 34 :: pair_body n level item.
Proof.
  unfold pair_text, pair_body, encode_basestring.
  now rewrite <- app_comm_cons, <- app_assoc.
Qed.

Lemma chain_cons (sep close : pystr) (c : codepoint) (chunk : pystr)
    (more : list pystr) :
  chain sep close (c :: chunk) more = c :: chain sep close chunk more.
Proof. destruct more; reflexivity. Qed.

Lemma json_text_object (level : nat) (item : pystr * jsonval)
    (more : list (pystr * jsonval)) :
  enc level (JObj (item :: more))
  = 123 :: nl (S level) ++ 34 :: object_loop n level item more.
Proof.
  unfold object_loop. rewrite <- chain_cons, <- pair_text_body, <- join_chain.
  reflexivity.
Qed.

Lemma skip_ws_space (x : pystr) : skip_ws (32 :: x) = skip_ws x.
Proof. reflexivity. Qed.

Ltac norm_app := repeat (rewrite <- app_assoc || rewrite <- app_comm_cons).

Lemma JSONObject_pairs_loop (level : nat) (more : list (pystr * jsonval)) :
  forall (item : pystr * jsonval) (fuel : nat) (rest : pystr),
    Forall (fun it => decodes n (S level) (snd it)) (item :: more) ->
    (length (object_loop n level item more) < fuel)%nat ->
    JSONObject_pairs fuel (object_loop n level item more ++ rest)
    = Some (item :: more, rest).
Proof.
  induction more as [|next more IH]; intros [k v] fuel rest HF Hf.
  - inversion HF as [|? ? [Hs Hd] HF']; subst. cbn [snd] in *.
    destruct fuel as [|fuel]; [lia|].
    unfold object_loop, pair_body in *. cbn [map chain fst snd] in *.
    repeat (rewrite length_app in Hf || rewrite length_cons in Hf).
    pose proof (newline_indent_length level).
    norm_app. cbn [JSONObject_pairs].
    rewrite scanstring_escaped.
    rewrite (skip_ws_nonws 58) by reflexivity.
    change (58 =? 58) with true. cbv iota.
    rewrite skip_ws_space, skip_ws_value by exact Hs.
    rewrite Hd by (try reflexivity; unfold pystr, codepoint in *; lia).
    rewrite skip_ws_newline_indent. reflexivity.
  - inversion HF as [|? ? [Hs Hd] HF']; subst. cbn [snd] in *.
    destruct fuel as [|fuel]; [lia|].
    pose proof (IH next fuel rest HF') as IHn.
    unfold object_loop, pair_body in *. cbn [map chain fst snd] in *.
    rewrite pair_text_body, chain_cons in *.
    repeat (rewrite length_app in Hf || rewrite length_cons in Hf).
    norm_app. cbn [JSONObject_pairs].
    rewrite scanstring_escaped.
    rewrite (skip_ws_nonws 58) by reflexivity.
    change (58 =? 58) with true. cbv iota.
    rewrite skip_ws_space, skip_ws_value by exact Hs.
    rewrite Hd by (try reflexivity; unfold pystr, codepoint in *; lia).
    rewrite (skip_ws_nonws 44) by reflexivity.
    change (44 =? 125) with false. change (44 =? 44) with true. cbv iota.
    norm_app.
    rewrite skip_ws_newline_indent.
    rewrite (skip_ws_nonws 34) by reflexivity.
    change (34 =? 34) with true. cbv iota.
    unfold pair_body in *. rewrite IHn by (unfold pystr, codepoint in *; lia).
    reflexivity.
Qed.

Lemma decodes_obj (level : nat) (items : list (pystr * jsonval)) :
  Forall (fun it => decodes n (S level) (snd it)) items ->
  dict_of_pairs items = items ->
  decodes n level (JObj items).
Proof.
  intros HF Hdict. destruct items as [|item more].
  - split; [reflexivity|]. intros [|fuel] rest Hf _; [lia|]. reflexivity.
  - unfold decodes. rewrite json_text_object. split; [reflexivity|].
    intros [|fuel] rest Hf _; [lia|].
    rewrite length_cons, length_app, length_cons in Hf.
    rewrite <- app_comm_cons, <- app_assoc, <- app_comm_cons.
    cbn [scan_once].
    change (123 =? 34) with false. change (123 =? 123) with true. cbv iota.
    rewrite skip_ws_newline_indent.
    rewrite (skip_ws_nonws 34) by reflexivity.
    change (34 =? 125) with false. change (34 =? 34) with true. cbv iota.
    rewrite JSONObject_pairs_loop
      by (assumption || (unfold pystr, codepoint in *; lia)).
    now rewrite Hdict.
Qed.

(** *** Records *)

Lemma decodes_list_str (level : nat) (l : list pystr) :
  decodes n level (JArr (map JStr l)).
Proof.
  apply decodes_arr, Forall_forall. intros v Hv.
  apply in_map_iff in Hv. destruct Hv as [s [<- _]]. apply decodes_str.
Qed.

Lemma decodes_model_dump (level : nat) (book : Book) :
  ints_fit book = true -> decodes n level (model_dump book).
Proof.
  intros Hb. apply andb_true_iff in Hb. destruct Hb as [Hy Hp].
  apply decodes_obj; [|reflexivity].
  unfold model_dump.
  repeat (apply Forall_cons;
          [cbn [snd];
           first [apply decodes_str | apply decodes_list_str
                 | now apply decodes_optional_int] |]).
  apply Forall_nil.
Qed.

Lemma loads_decodes (v : jsonval) :
  decodes n 0 v -> loads (enc 0 v) = Some v.
Proof.
  intros [Hs Hd]. unfold loads.
  destruct (starts_value_head _ Hs) as [c [r [E [Hws [_ Hbom]]]]].
  assert (B : startswith (enc 0 v) [65279] = false).
  { rewrite E. simpl. now rewrite Hbom. }
  rewrite B.
  rewrite <- (app_nil_r (enc 0 v)) at 2.
  rewrite skip_ws_value by exact Hs.
  rewrite Hd by (try reflexivity; unfold pystr, codepoint in *; lia). reflexivity.
Qed.

End Roundtrip.

(** *** The encoder and the decoder on examples *)

Example format_dune :
  format (H := ascii_runtime) JsonFormatter_default [dune] = Some dune_json.
Proof. vm_compute. reflexivity. Qed.

Example loads_dune :
  loads (H := ascii_runtime) dune_json = Some (JArr [model_dump dune]).
Proof. vm_compute. reflexivity. Qed.

(** Whitespace, escapes and a surrogate pair; a repeated key keeps its
    place and takes the later value. *)
Example loads_escapes :
  loads (H := ascii_runtime)
    (lit " [ 1 , -20, " ++ 34 :: lit "a\u00e9\n\ud83d\ude00" ++ 34
     :: lit " ,{ " ++ quoted "k" ++ lit ":null, " ++ quoted "j" ++ lit ":[],"
     ++ quoted "k" ++ lit " : true} ] ")
  = Some (JArr [JInt 1; JInt (-20); JStr [97; 233; 10; 128512];
                JObj [(lit "k", JBool true); (lit "j", JArr [])]]).
Proof. vm_compute. reflexivity. Qed.

(** A leading zero, a trailing comma and a control character in a string
    are refused. *)
Example loads_refuses :
  loads (H := ascii_runtime) (lit "01") = None
  /\ loads (H := ascii_runtime) (lit "[1,]") = None
  /\ loads (H := ascii_runtime) (34 :: 9 :: [34]) = None.
Proof. repeat split; vm_compute; reflexivity. Qed.

(** *** When the encoder gives a text, and which *)

Lemma collect_map_Some (A : Type) (f : A -> option pystr) (g : A -> pystr)
    (l : list A) :
  (forall x, In x l -> f x = Some (g x)) ->
  collect (map f l) = Some (map g l).
Proof.
  induction l as [|x l IH]; intros Hf; [reflexivity|].
  cbn [map collect]. rewrite (Hf x) by now left.
  rewrite IH by (intros y Hy; apply Hf; now right). reflexivity.
Qed.

Lemma collect_map_None (A : Type) (f : A -> option pystr) (l : list A) :
  (exists x, In x l /\ f x = None) -> collect (map f l) = None.
Proof.
  intros [x [Hin Hx]]. induction l as [|y l IH]; [destruct Hin|].
  cbn [map collect]. destruct Hin as [->|Hin].
  - now rewrite Hx.
  - destruct (f y); [|reflexivity]. now rewrite IH.
Qed.

Section EncoderProps.
Context `{PyRuntime}.

Lemma iterencode_array (ind : pystr) (level : nat) (x : jsonval)
    (more : list jsonval) :
  iterencode ind level (JArr (x :: more))
  = (chunks <- collect (map (iterencode ind (S level)) (x :: more)) ;;
     Some ([91] ++ newline_indent ind (S level)
           ++ join (44 :: newline_indent ind (S level)) chunks
           ++ newline_indent ind level ++ [93])).
Proof. reflexivity. Qed.

Lemma iterencode_object (ind : pystr) (level : nat) (item : pystr * jsonval)
    (more : list (pystr * jsonval)) :
  iterencode ind level (JObj (item :: more))
  = (chunks <- collect
                 (map (fun item =>
                         value <- iterencode ind (S level) (snd item) ;;
                         Some (encode_basestring (fst item) ++ lit ": "
                               ++ value)) (item :: more)) ;;
     Some ([123] ++ newline_indent ind (S level)
           ++ join (44 :: newline_indent ind (S level)) chunks
           ++ newline_indent ind level ++ [125])).
Proof. reflexivity. Qed.

Lemma json_text_array_eq (ind : pystr) (level : nat) (x : jsonval)
    (more : list jsonval) :
  json_text ind level (JArr (x :: more))
  = [91] ++ newline_indent ind (S level)
    ++ join (44 :: newline_indent ind (S level))
         (map (json_text ind (S level)) (x :: more))
    ++ newline_indent ind level ++ [93].
Proof. reflexivity. Qed.

Lemma json_text_object_eq (ind : pystr) (level : nat)
    (item : pystr * jsonval) (more : list (pystr * jsonval)) :
  json_text ind level (JObj (item :: more))
  = [123] ++ newline_indent ind (S level)
    ++ join (44 :: newline_indent ind (S level))
         (map (fun item => encode_basestring (fst item) ++ lit ": "
                           ++ json_text ind (S level) (snd item))
              (item :: more))
    ++ newline_indent ind level ++ [125].
Proof. reflexivity. Qed.

(** An array of values that all have a text has the text of the array;
    one value without a text leaves the array without. *)
Lemma iterencode_array_Some (ind : pystr) (level : nat) (l : list jsonval) :
  (forall v, In v l ->
     iterencode ind (S level) v = Some (json_text ind (S level) v)) ->
  iterencode ind level (JArr l) = Some (json_text ind level (JArr l)).
Proof.
  intros Hl. destruct l as [|x more]; [reflexivity|].
  rewrite iterencode_array, json_text_array_eq.
  now rewrite (collect_map_Some _ (json_text ind (S level)) _ Hl).
Qed.

Lemma iterencode_array_None (ind : pystr) (level : nat) (l : list jsonval) :
  (exists v, In v l /\ iterencode ind (S level) v = None) ->
  iterencode ind level (JArr l) = None.
Proof.
  intros Hl. destruct l as [|x more]; [now destruct Hl as [v [[] _]]|].
  rewrite iterencode_array. now rewrite (collect_map_None _ _ Hl).
Qed.

Lemma iterencode_list_str (ind : pystr) (level : nat) (l : list pystr) :
  iterencode ind level (JArr (map JStr l))
  = Some (json_text ind level (JArr (map JStr l))).
Proof.
  apply iterencode_array_Some. intros v Hv.
  apply in_map_iff in Hv. now destruct Hv as [s [<- _]].
Qed.

Lemma iterencode_optional_int (ind : pystr) (level : nat) (x : option Z) :
  iterencode ind level (dump_optional_int x)
  = if int_fits x then Some (json_text ind level (dump_optional_int x))
    else None.
Proof. destruct x as [z|]; reflexivity. Qed.

Lemma iterencode_model_dump (ind : pystr) (level : nat) (book : Book) :
  iterencode ind level (model_dump book)
  = if ints_fit book then Some (json_text ind level (model_dump book))
    else None.
Proof.
  unfold model_dump, ints_fit.
  rewrite iterencode_object, json_text_object_eq. cbn [map fst snd].
  rewrite !iterencode_list_str, !iterencode_optional_int.
  cbn [collect iterencode].
  destruct (int_fits (first_publish_year book)); [|reflexivity].
  destruct (int_fits (number_of_pages book)); reflexivity.
Qed.

(** [format] gives a text exactly for the lists whose integers are all
    within the limit, and then the text [format_text]. *)
Lemma format_cases (self : JsonFormatter) (books : list Book) :
  format self books
  = if forallb ints_fit books then Some (format_text self books) else None.
Proof.
  unfold format, format_text, dumps.
  destruct (forallb ints_fit books) eqn:Hb.
  - apply iterencode_array_Some. intros v Hv.
    apply in_map_iff in Hv. destruct Hv as [b [<- Hin]].
    rewrite iterencode_model_dump.
    rewrite forallb_forall in Hb. now rewrite (Hb b Hin).
  - apply iterencode_array_None.
    assert (E : exists b, In b books /\ ints_fit b = false).
    { induction books as [|b books IH]; [discriminate|].
      cbn [forallb] in Hb. destruct (ints_fit b) eqn:Eb.
      - destruct (IH Hb) as [b' [Hin Hb']]. exists b'. split; [now right|].
        exact Hb'.
      - exists b. split; [now left | exact Eb]. }
    destruct E as [b [Hin Eb]]. exists (model_dump b). split.
    + now apply in_map.
    + now rewrite iterencode_model_dump, Eb.
Qed.

Lemma format_Some (self : JsonFormatter) (books : list Book) (text : pystr) :
  format self books = Some text <->
  forallb ints_fit books = true /\ text = format_text self books.
Proof.
  rewrite format_cases. destruct (forallb ints_fit books).
  - split; [intros E; injection E as <-; now split | now intros [_ ->]].
  - split; [discriminate | now intros [E _]].
Qed.

Lemma format_None (self : JsonFormatter) (books : list Book) :
  format self books = None <-> forallb ints_fit books = false.
Proof.
  rewrite format_cases. destruct (forallb ints_fit books);
    split; intros E; try discriminate; reflexivity.
Qed.

Lemma loads_format_text (self : JsonFormatter) (books : list Book) :
  forallb ints_fit books = true ->
  loads (format_text self books) = Some (JArr (map model_dump books)).
Proof.
  intros Hb.
  apply (@loads_decodes _ (Z.to_nat (indent self))
           (JArr (map model_dump books))).
  apply decodes_arr, Forall_forall. intros v Hv.
  apply in_map_iff in Hv. destruct Hv as [b [<- Hin]].
  apply decodes_model_dump.
  rewrite forallb_forall in Hb. now apply Hb.
Qed.

(** The number of digits of an integer given by its decimal digits. *)
Lemma int_digits_of_uint (u : Decimal.uint) :
  int_digits (Z.of_int (Pos u)) = length (uint_chars (unorm u)).
Proof. unfold int_digits. now rewrite DecimalZ.to_of. Qed.

End EncoderProps.

Section FormatClaims.
Context `{PyRuntime}.

(** C7. For a list of records whose integer fields all have at most 4300
    digits, [format] gives a text, whatever the indent of the formatter,
    and [json.loads] of that text is the array of one mapping per record,
    in the order of the records; each mapping has the six field names of
    the model as its keys, with the record's values under them (a string,
    an array of strings, an integer or [None]), and has neither of the
    aliases [author_name] and [number_of_pages_median] as a key.  For a
    list with an integer field of more digits [format] raises and gives
    no text. *)
Theorem format_loads_roundtrip :
  forall (self : JsonFormatter) (books : list Book),
    (forallb ints_fit books = true ->
     exists text,
       format self books = Some text
       /\ loads text
          = Some (JArr (map (fun b =>
              JObj [(lit "title", JStr (title b));
                    (lit "author_names", JArr (map JStr (author_names b)));
                    (lit "first_publish_year",
                      match first_publish_year b with
                      | Some z => JInt z
                      | None => JNull
                      end);
                    (lit "publisher", JArr (map JStr (publisher b)));
                    (lit "language", JArr (map JStr (language b)));
                    (lit "number_of_pages",
                      match number_of_pages b with
                      | Some z => JInt z
                      | None => JNull
                      end)]) books)))
    /\ (forallb ints_fit books = false -> format self books = None)
    /\ (forall b d, model_dump b = JObj d ->
          dict_get d (lit "author_name") = None
          /\ dict_get d (lit "number_of_pages_median") = None).
Proof.
  intros self books. split; [|split].
  - intros Hb. exists (format_text self books). split.
    + now apply format_Some.
    + now apply loads_format_text.
  - apply format_None.
  - intros b d E. injection E as <-. split; reflexivity.
Qed.

End FormatClaims.

Lemma format_loads_roundtrip_witness :
  forallb ints_fit [dune] = true
  /\ exists text,
       format (H := ascii_runtime) JsonFormatter_default [dune] = Some text
       /\ loads (H := ascii_runtime) text = Some (JArr [model_dump dune]).
Proof.
  split; [reflexivity|].
  exact (proj1 (@format_loads_roundtrip ascii_runtime JsonFormatter_default
                  [dune]) eq_refl).
Defined.

Lemma long_year_digits : int_digits long_year = 4301%nat.
Proof.
  unfold long_year. rewrite int_digits_of_uint. vm_compute. reflexivity.
Qed.

Lemma far_future_does_not_fit : forallb ints_fit [far_future] = false.
Proof.
  assert (E : forallb ints_fit [far_future]
              = (int_digits long_year <=? int_max_str_digits)%nat
                && true && true) by reflexivity.
  rewrite E, long_year_digits. reflexivity.
Qed.

(** The claim as the specification has it, for every list of records,
    fails: the year of [far_future] has 4301 digits, the conversion of it
    to text raises, and [format] gives no text that could be read back,
    whatever the indent. *)
Lemma format_long_year_counterexample :
  first_publish_year far_future = Some long_year
  /\ int_digits long_year = 4301%nat
  /\ forall self : JsonFormatter,
       format (H := ascii_runtime) self [far_future] = None.
Proof.
  split; [reflexivity|]. split; [exact long_year_digits|].
  intros self. apply format_None. exact far_future_does_not_fit.
Qed.

(* ================================================================== *)
(** * Further properties of the code *)

(** ** filter_books: order, composition, concatenation *)

Lemma subseq_filter {A} (f : A -> bool) (l : list A) : subseq (filter f l) l.
Proof.
  induction l as [|x l IH]; simpl; [constructor|].
  destruct (f x); now constructor.
Qed.

Lemma subseq_refl {A} (l : list A) : subseq l l.
Proof. induction l; now constructor. Qed.

Lemma subseq_trans {A} (l1 l2 l3 : list A) :
  subseq l1 l2 -> subseq l2 l3 -> subseq l1 l3.
Proof.
  intros H12 H23. revert l1 H12.
  induction H23 as [|x l2 l3 _ IH|x l2 l3 _ IH]; intros l1 H12.
  - exact H12.
  - inversion H12; subst; constructor; now apply IH.
  - constructor. now apply IH.
Qed.

Lemma subseq_length {A} (l1 l2 : list A) :
  subseq l1 l2 -> (length l1 <= length l2)%nat.
Proof. induction 1; simpl; lia. Qed.

Lemma subseq_In {A} (l1 l2 : list A) (x : A) :
  subseq l1 l2 -> In x l1 -> In x l2.
Proof. induction 1; simpl; intuition. Qed.

Section FilterMore.
Context `{PyRuntime}.

Lemma filter_books_subseq (books : list Book) tc my :
  subseq (filter_books books tc my) books.
Proof.
  unfold filter_books.
  destruct my as [y|].
  - eapply subseq_trans; [apply subseq_filter|].
    destruct tc as [t|]; [destruct (str_bool t)|];
      (apply subseq_filter || apply subseq_refl).
  - destruct tc as [t|]; [destruct (str_bool t)|];
      (apply subseq_filter || apply subseq_refl).
Qed.

Lemma filter_books_nothing (books : list Book) :
  filter_books books None None = books.
Proof. reflexivity. Qed.

(** X1. Whatever the arguments, the result of [filter_books] is the input
    with some records left out and the others in their order: nothing is
    added, repeated or moved, and the result is no longer than the
    input. *)
Theorem filter_books_stable :
  forall (books : list Book) (tc : option pystr) (my : option Z),
    subseq (filter_books books tc my) books
    /\ (length (filter_books books tc my) <= length books)%nat
    /\ (forall b, In b (filter_books books tc my) -> In b books)
    /\ (NoDup books -> NoDup (filter_books books tc my)).
Proof.
  intros books tc my. pose proof (filter_books_subseq books tc my) as S.
  split; [exact S|]. split; [now apply subseq_length|].
  split; [intros b; now apply subseq_In|].
  intros ND. unfold filter_books.
  destruct my as [y|]; destruct tc as [t|]; try destruct (str_bool t);
    repeat apply NoDup_filter; exact ND.
Qed.

(** X2. The two criteria may be applied in separate calls, in either
    order: filtering by title and then by year, or by year and then by
    title, gives what one call with both arguments gives. *)
Theorem filter_books_in_two_calls :
  forall (books : list Book) (tc : option pystr) (my : option Z),
    filter_books (filter_books books tc None) None my
    = filter_books books tc my
    /\ filter_books (filter_books books None my) tc None
       = filter_books books tc my.
Proof.
  intros books tc my. split; [reflexivity|].
  destruct my as [y|]; [|reflexivity].
  destruct tc as [[|c q]|]; try reflexivity.
  rewrite (filter_books_year books (Some (c :: q)) y).
  rewrite (filter_books_year books None y).
  rewrite !filter_books_title by discriminate.
  change (filter_books books None None) with books.
  rewrite !filter_twice. apply filter_ext. intros b. apply andb_comm.
Qed.

(** X3. Filtering a list made of two parts is filtering each part and
    joining the results: records fetched in several pages can be filtered
    page by page. *)
Theorem filter_books_app :
  forall (books1 books2 : list Book) (tc : option pystr) (my : option Z),
    filter_books (books1 ++ books2) tc my
    = filter_books books1 tc my ++ filter_books books2 tc my.
Proof.
  intros books1 books2 tc my. unfold filter_books.
  destruct my as [y|]; destruct tc as [t|]; try destruct (str_bool t);
    now rewrite ?filter_app.
Qed.

(** X4. Raising the year bound only removes records: filtering with a
    bound [y2] what was kept with a bound [y1 <= y2] gives what the bound
    [y2] gives on the input, so every record kept with [y2] is kept with
    [y1]. *)
Theorem filter_books_raise_bound :
  forall (books : list Book) (tc : option pystr) (y1 y2 : Z),
    (y1 <= y2)%Z ->
    filter_books (filter_books books tc (Some y1)) None (Some y2)
    = filter_books books tc (Some y2)
    /\ subseq (filter_books books tc (Some y2))
              (filter_books books tc (Some y1)).
Proof.
  intros books tc y1 y2 Hle.
  assert (E : filter_books (filter_books books tc (Some y1)) None (Some y2)
              = filter_books books tc (Some y2)).
  { rewrite (filter_books_year (filter_books books tc (Some y1)) None y2),
      (filter_books_year books tc y1), (filter_books_year books tc y2).
    rewrite filter_books_nothing.
    rewrite filter_twice. apply filter_ext. intros b. unfold year_ok.
    destruct (first_publish_year b) as [fy|]; [|reflexivity].
    destruct (y2 <=? fy)%Z eqn:E2.
    - apply Z.leb_le in E2. rewrite andb_true_r. apply Z.leb_le. lia.
    - apply andb_false_r. }
  split; [exact E|]. rewrite <- E. apply filter_books_subseq.
Qed.

End FilterMore.

Lemma filter_books_raise_bound_witness :
  (2005 <= 2010)%Z
  /\ filter_books (H := ascii_runtime)
       (filter_books (H := ascii_runtime) scenario_books None (Some 2005%Z))
       None (Some 2010%Z)
     = [python_crash_course].
Proof.
  split; [lia|].
  destruct (@filter_books_raise_bound ascii_runtime scenario_books None
              2005%Z 2010%Z) as [E _]; [lia|].
  rewrite E. reflexivity.
Defined.

(** ** fetch_books: one request, and what each outcome means *)

Section FetchMore.
Context `{PyRuntime}.

Lemma validate_each_Forall2 {A} (validate : jsonval -> option A)
    (items : list jsonval) (l : list A) :
  validate_each validate items = Some l <->
  Forall2 (fun item a => validate item = Some a) items l.
Proof.
  revert l; induction items as [|v items IH]; intros l; simpl.
  - split.
    + intros E. injection E as <-. constructor.
    + intros F. now inversion F.
  - split.
    + intros E. bind_inv E. injection E as <-. constructor; [assumption|].
      now apply IH.
    + intros F. inversion F as [|? a ? l' Hv Hl]; subst.
      rewrite Hv. apply IH in Hl. now rewrite Hl.
Qed.

Lemma fetch_books_cases (srv : server) (q : pystr) (limit : Z) :
  fetch_books srv q limit
  = match srv BASE_URL q limit with
    | None => ([ClientOpen; Get BASE_URL q limit; ClientClose],
               Raise TransportError)
    | Some response =>
        if is_success (status_code response) then
          match response_json response with
          | None => ([ClientOpen; Get BASE_URL q limit; DecodeBody; ClientClose],
                     Raise JSONDecodeError)
          | Some data =>
              ([ClientOpen; Get BASE_URL q limit; DecodeBody; ClientClose],
               match validate_OpenLibraryResponse data with
               | Some parsed => Ok (docs parsed)
               | None => Raise ValidationError
               end)
          end
        else ([ClientOpen; Get BASE_URL q limit; ClientClose],
              Raise (HTTPStatusError (status_code response)))
    end.
Proof.
  unfold fetch_books, with_client, client_get, raise_for_status, json_of,
    bind, lift, ret, raise, OpenLibraryResponse_model_validate.
  destruct (srv BASE_URL q limit) as [response|]; [|reflexivity]. simpl.
  destruct (is_success (status_code response)); [|reflexivity]. simpl.
  destruct (response_json response) as [data|]; [|reflexivity]. simpl.
  destruct (validate_OpenLibraryResponse data); reflexivity.
Qed.

(** X5. Whatever the server does, a call of [fetch_books] opens the client
    once, sends one GET to the fixed URL with the query and the limit it
    was given, and closes the client; the body is decoded at most once,
    and exactly when a response with a status in 200..299 came back. *)
Theorem fetch_books_one_request :
  forall (srv : server) (q : pystr) (limit : Z),
    (fst (fetch_books srv q limit)
     = [ClientOpen; Get BASE_URL q limit; ClientClose]
     \/ fst (fetch_books srv q limit)
        = [ClientOpen; Get BASE_URL q limit; DecodeBody; ClientClose])
    /\ (In DecodeBody (fst (fetch_books srv q limit)) <->
        exists response,
          srv BASE_URL q limit = Some response
          /\ is_success (status_code response) = true).
Proof.
  intros srv q limit. rewrite fetch_books_cases.
  destruct (srv BASE_URL q limit) as [response|].
  - destruct (is_success (status_code response)) eqn:Hs.
    + destruct (response_json response); simpl; (split; [now right|]);
        (split; [intros _; now exists response | tauto]).
    + simpl. split; [now left|]. split.
      * intros [F|[F|[F|[]]]]; discriminate.
      * intros [r [E Hr]]. injection E as <-. congruence.
  - simpl. split; [now left|]. split.
    + intros [F|[F|[F|[]]]]; discriminate.
    + intros [r [E _]]. discriminate.
Qed.

(** X6. When the request does not complete, [fetch_books] raises the
    transport error after that one request; no body is decoded. *)
Theorem fetch_books_transport_failure :
  forall (srv : server) (q : pystr) (limit : Z),
    srv BASE_URL q limit = None ->
    fetch_books srv q limit
    = ([ClientOpen; Get BASE_URL q limit; ClientClose], Raise TransportError).
Proof. intros srv q limit E. rewrite fetch_books_cases. now rewrite E. Qed.

(** X7. When the status is in 200..299 and the body is not JSON,
    [fetch_books] raises the decoding error of [response.json()], not a
    validation error, and returns no record. *)
Theorem fetch_books_body_not_json :
  forall (srv : server) (q : pystr) (limit : Z) (status : Z),
    srv BASE_URL q limit = Some (mkHttp status None) ->
    is_success status = true ->
    fetch_books srv q limit
    = ([ClientOpen; Get BASE_URL q limit; DecodeBody; ClientClose],
       Raise JSONDecodeError).
Proof.
  intros srv q limit status E Hs. rewrite fetch_books_cases, E. simpl.
  now rewrite Hs.
Qed.

(** X8. [fetch_books] returns a list of records exactly when the response
    has a status in 200..299, its body decodes to a mapping whose count
    validates as an integer and whose [docs] is an array, and every
    element of the array validates as a record; the list returned has one
    record per element, each the validation of the element at its
    position.  One invalid element leaves no list at all. *)
Theorem fetch_books_returns_docs :
  forall (srv : server) (q : pystr) (limit : Z) (books : list Book),
    snd (fetch_books srv q limit) = Ok books <->
    exists response d v n items,
      srv BASE_URL q limit = Some response
      /\ is_success (status_code response) = true
      /\ response_json response = Some (JObj d)
      /\ lookup_alias d (lit "numFound") (lit "num_found") = Some v
      /\ validate_int v = Some n
      /\ dict_get d (lit "docs") = Some (JArr items)
      /\ length items = length books
      /\ Forall2 (fun item b => Book_model_validate item = Ok b) items books.
Proof.
  intros srv q limit books. rewrite fetch_books_cases. split.
  - destruct (srv BASE_URL q limit) as [response|]; [|discriminate].
    destruct (is_success (status_code response)) eqn:Hs; [|discriminate].
    destruct (response_json response) as [data|] eqn:Hj; [|discriminate].
    simpl. destruct (validate_OpenLibraryResponse data) as [parsed|] eqn:Hv;
      [|discriminate].
    intros E. injection E as <-.
    destruct data as [| | | | |?|d]; try discriminate.
    unfold validate_OpenLibraryResponse, required in Hv.
    destruct (lookup_alias d (lit "numFound") (lit "num_found")) as [v|] eqn:Hn;
      [|discriminate].
    destruct (validate_int v) as [n|] eqn:Hi; [|discriminate].
    destruct (dict_get d (lit "docs")) as [vd|] eqn:Hd; [|discriminate].
    destruct vd as [| | | | |items|?]; try discriminate. simpl in Hv.
    destruct (validate_each validate_Book items) as [ds|] eqn:He;
      [|discriminate].
    injection Hv as <-. simpl.
    apply validate_each_Forall2 in He.
    exists response, d, v, n, items. repeat split; try assumption.
    + eapply Forall2_length; eassumption.
    + eapply Forall2_impl; [|exact He]. intros item b Hb.
      now apply model_validate_Ok.
  - intros (response & d & v & n & items & Hsrv & Hs & Hj & Hn & Hi & Hd
            & _ & HF).
    rewrite Hsrv, Hs, Hj. simpl.
    unfold validate_OpenLibraryResponse, required. rewrite Hn, Hi, Hd. simpl.
    assert (He : validate_each validate_Book items = Some books).
    { apply validate_each_Forall2. eapply Forall2_impl; [|exact HF].
      intros item b Hb. now apply model_validate_Ok. }
    now rewrite He.
Qed.

End FetchMore.

(** ** Validation: what a record dumps validates back; values that are
    no list *)

Section ValidationMore.
Context `{PyRuntime}.

Lemma validate_optional_int_dump (x : option Z) :
  validate_optional_int (dump_optional_int x) = Some x.
Proof. now destruct x. Qed.

Lemma validate_model_dump (b : Book) : validate_Book (model_dump b) = Some b.
Proof.
  destruct b as [t a y p l n].
  unfold validate_Book, model_dump, lookup_alias, required, with_default.
  cbn [dict_get str_eqb lit list_ascii_of_string map N_of_ascii title
       author_names first_publish_year publisher language number_of_pages].
  cbn -[validate_list validate_optional_int dump_optional_int].
  rewrite !(proj2 (validate_list_str _ _) eq_refl).
  now rewrite !validate_optional_int_dump.
Qed.

Lemma validate_each_model_dump (books : list Book) :
  validate_each validate_Book (map model_dump books) = Some books.
Proof.
  induction books as [|b books IH]; [reflexivity|].
  cbn [map validate_each]. now rewrite validate_model_dump, IH.
Qed.

(** X9. What [model_dump] gives for a record validates back to that
    record, although two of its keys are field names and not the aliases;
    the mapping with the two aliases in their place validates to the same
    record. *)
Theorem model_dump_validates_back :
  forall b : Book,
    Book_model_validate (model_dump b) = Ok b
    /\ Book_model_validate
         (JObj [(lit "title", JStr (title b));
                (lit "author_name", JArr (map JStr (author_names b)));
                (lit "first_publish_year",
                  dump_optional_int (first_publish_year b));
                (lit "publisher", JArr (map JStr (publisher b)));
                (lit "language", JArr (map JStr (language b)));
                (lit "number_of_pages_median",
                  dump_optional_int (number_of_pages b))])
       = Ok b.
Proof.
  intros b. split; apply model_validate_Ok; [apply validate_model_dump|].
  destruct b as [t a y p l n].
  unfold validate_Book, lookup_alias, required, with_default.
  cbn -[validate_list validate_optional_int dump_optional_int].
  rewrite !(proj2 (validate_list_str _ _) eq_refl).
  now rewrite !validate_optional_int_dump.
Qed.

Lemma validate_list_not_array {A} (validate : jsonval -> option A)
    (v : jsonval) :
  (forall items, v <> JArr items) -> validate_list validate v = None.
Proof. intros Hv. destruct v; try reflexivity. now destruct (Hv items). Qed.

(** X10. A sequence field whose input value is no array, [null] included,
    makes validation fail: the default is not taken.  For [author_names]
    the value under the alias decides, also when the input holds a list
    under the field's own name. *)
Theorem sequence_field_must_be_array :
  forall (d : dict) (k : pystr) (v : jsonval),
    k = lit "author_name" \/ k = lit "publisher" \/ k = lit "language" ->
    dict_get d k = Some v ->
    (forall items, v <> JArr items) ->
    Book_model_validate (JObj d) = Raise ValidationError.
Proof.
  intros d k v Hk Hd Hv. apply model_validate_Raise.
  pose proof (validate_list_not_array validate_str Hv) as Hn.
  unfold validate_Book, lookup_alias, with_default.
  destruct (required (dict_get d (lit "title")) validate_str); [|reflexivity].
  destruct Hk as [-> | [-> | ->]]; rewrite Hd; cbv beta iota; rewrite Hn.
  - reflexivity.
  - repeat match goal with
           | |- context [match ?x with Some _ => _ | None => _ end] =>
               destruct x; try reflexivity
           end.
  - repeat match goal with
           | |- context [match ?x with Some _ => _ | None => _ end] =>
               destruct x; try reflexivity
           end.
Qed.

End ValidationMore.

(** ** The text of format: which characters, and where the fields are *)

Lemma part_refl (t : pystr) : part t t.
Proof. exists [], []. now rewrite app_nil_r. Qed.

Lemma part_trans (t u w : pystr) : part t u -> part u w -> part t w.
Proof.
  intros [p1 [q1 ->]] [p2 [q2 ->]]. exists (p2 ++ p1), (q1 ++ q2).
  now rewrite <- !app_assoc.
Qed.

Lemma part_app_r (t u w : pystr) : part t u -> part t (w ++ u).
Proof.
  intros [p [q ->]]. exists (w ++ p), q. now rewrite <- app_assoc.
Qed.

Lemma part_app_l (t u w : pystr) : part t u -> part t (u ++ w).
Proof.
  intros [p [q ->]]. exists p, (q ++ w). now rewrite <- !app_assoc.
Qed.

Lemma part_cons (t u : pystr) (c : codepoint) : part t u -> part t (c :: u).
Proof. apply (@part_app_r t u [c]). Qed.

Lemma part_chain (sep close first chunk : pystr) (more : list pystr) :
  In chunk (first :: more) -> part chunk (chain sep close first more).
Proof.
  revert first; induction more as [|next more IH]; intros first Hin.
  - destruct Hin as [<-|[]]. cbn [chain]. apply part_app_l, part_refl.
  - cbn [chain]. destruct Hin as [<-|Hin].
    + apply part_app_l, part_refl.
    + apply part_app_r, part_app_r. now apply IH.
Qed.

Lemma Forall_chain (P : codepoint -> Prop) (sep close first : pystr)
    (more : list pystr) :
  Forall P sep -> Forall P close -> Forall P first ->
  Forall (Forall P) more -> Forall P (chain sep close first more).
Proof.
  intros Hs Hc. revert first; induction more as [|next more IH];
    intros first Hf Hm; cbn [chain]; apply Forall_app; split; try assumption.
  inversion Hm; subst. apply Forall_app. split; [assumption|]. now apply IH.
Qed.

Section FormatText.
Context `{PyRuntime}.
Variable P : codepoint -> Prop.
Hypothesis P_newline : P 10.
Hypothesis P_ascii : forall c, 32 <= c -> c < 128 -> P c.

Lemma hex_digit_ascii (k : N) : k < 16 -> 32 <= hex_digit k /\ hex_digit k < 128.
Proof. intros Hk. unfold hex_digit. destruct (k <? 10); lia. Qed.

Lemma Forall_escape_char (a : codepoint) :
  (32 <= a -> P a) -> Forall P (escape_char a).
Proof.
  intros Ha. unfold escape_char.
  repeat match goal with
         | |- Forall P (if ?b then _ else _) => destruct b eqn:?
         end;
    repeat (apply Forall_cons; [try (apply P_ascii; lia)|]);
    try apply Forall_nil.
  - match goal with E : (a <? 32) = true |- _ => apply N.ltb_lt in E end.
    assert (a / 16 < 16) by (apply N.Div0.div_lt_upper_bound; lia).
    now apply P_ascii; apply hex_digit_ascii.
  - assert (a mod 16 < 16) by (apply N.mod_lt; lia).
    now apply P_ascii; apply hex_digit_ascii.
  - apply Ha. match goal with E : (a <? 32) = false |- _ => apply N.ltb_ge in E end.
    assumption.
Qed.

Lemma Forall_encode_basestring (s : pystr) :
  literal_ok P s -> Forall P (encode_basestring s).
Proof.
  intros Hs. unfold encode_basestring. apply Forall_cons; [apply P_ascii; lia|].
  apply Forall_app. split; [|repeat constructor; apply P_ascii; lia].
  apply Forall_flat_map, Forall_forall. intros a Ha.
  apply Forall_escape_char. now apply Hs.
Qed.

Lemma Forall_uint_chars (u : Decimal.uint) : Forall P (uint_chars u).
Proof.
  induction u; cbn [uint_chars]; constructor; try assumption;
    apply P_ascii; lia.
Qed.

Lemma Forall_decimal (z : Z) : Forall P (decimal z).
Proof.
  unfold decimal. destruct (Z.to_int z); [|constructor; [apply P_ascii; lia|]];
    apply Forall_uint_chars.
Qed.

Lemma Forall_newline_indent (n level : nat) :
  Forall P (newline_indent (repeat 32 n) level).
Proof.
  unfold newline_indent. constructor; [exact P_newline|].
  apply Forall_concat, Forall_forall. intros l Hl.
  apply repeat_spec in Hl. subst l. apply Forall_forall. intros c Hc.
  apply repeat_spec in Hc. subst c. apply P_ascii; lia.
Qed.

Variable n : nat.

Local Abbreviation nl level := (newline_indent (repeat 32 n) level).
Local Abbreviation enc level := (json_text (repeat 32 n) level).

Ltac ascii_chars :=
  repeat (apply Forall_cons; [apply P_ascii; lia|]); apply Forall_nil.

Lemma Forall_array (level : nat) (items : list jsonval) :
  (forall v, In v items -> Forall P (enc (S level) v)) ->
  Forall P (enc level (JArr items)).
Proof.
  intros Hv. destruct items as [|x more].
  - change (Forall P [91; 93]). ascii_chars.
  - rewrite json_text_array. constructor; [apply P_ascii; lia|].
    apply Forall_app. split; [apply Forall_newline_indent|].
    unfold array_loop. apply Forall_chain.
    + constructor; [apply P_ascii; lia | apply Forall_newline_indent].
    + apply Forall_app. split; [apply Forall_newline_indent|].
      ascii_chars.
    + apply Hv. now left.
    + apply Forall_map, Forall_forall. intros v Hin. apply Hv. now right.
Qed.

Lemma Forall_pair_text (level : nat) (item : pystr * jsonval) :
  literal_ok P (fst item) -> Forall P (enc (S level) (snd item)) ->
  Forall P (pair_text n level item).
Proof.
  intros Hk Hv. unfold pair_text. apply Forall_app. split;
    [now apply Forall_encode_basestring|].
  apply Forall_app. split; [|exact Hv].
  change (Forall P [58; 32]). ascii_chars.
Qed.

Lemma Forall_object (level : nat) (items : list (pystr * jsonval)) :
  (forall item, In item items ->
     literal_ok P (fst item) /\ Forall P (enc (S level) (snd item))) ->
  Forall P (enc level (JObj items)).
Proof.
  intros Hv. destruct items as [|item more].
  - change (Forall P [123; 125]). ascii_chars.
  - rewrite json_text_object. constructor; [apply P_ascii; lia|].
    apply Forall_app. split; [apply Forall_newline_indent|].
    unfold object_loop. rewrite <- chain_cons.
    apply Forall_chain.
    + constructor; [apply P_ascii; lia | apply Forall_newline_indent].
    + apply Forall_app. split; [apply Forall_newline_indent|].
      ascii_chars.
    + rewrite <- pair_text_body. apply Forall_pair_text; apply Hv; now left.
    + apply Forall_map, Forall_forall. intros it Hin.
      apply Forall_pair_text; apply Hv; now right.
Qed.

End FormatText.

Section FormatParts.
Context `{PyRuntime}.
Variable n : nat.

Local Abbreviation nl level := (newline_indent (repeat 32 n) level).
Local Abbreviation enc level := (json_text (repeat 32 n) level).

Lemma part_array (level : nat) (items : list jsonval) (v : jsonval) :
  In v items -> part (enc (S level) v) (enc level (JArr items)).
Proof.
  intros Hin. destruct items as [|x more]; [destruct Hin|].
  rewrite json_text_array. apply part_cons, part_app_r.
  unfold array_loop. apply part_chain.
  change (enc (S level) x :: map (enc (S level)) more)
    with (map (enc (S level)) (x :: more)).
  now apply in_map.
Qed.

Lemma part_object (level : nat) (items : list (pystr * jsonval))
    (item : pystr * jsonval) :
  In item items -> part (enc (S level) (snd item)) (enc level (JObj items)).
Proof.
  intros Hin. destruct items as [|first more]; [destruct Hin|].
  rewrite json_text_object. apply part_cons, part_app_r.
  unfold object_loop. rewrite <- chain_cons, <- pair_text_body.
  apply part_trans with (u := pair_text n level item).
  - unfold pair_text. apply part_app_r, part_app_r, part_refl.
  - apply part_chain.
    change (pair_text n level first :: map (pair_text n level) more)
      with (map (pair_text n level) (first :: more)).
    now apply in_map.
Qed.

Lemma part_text_model_dump (level : nat) (b : Book) (s : pystr) :
  In s (texts b) -> part (encode_basestring s) (enc level (model_dump b)).
Proof.
  unfold texts. intros [<-|Hin].
  - apply (@part_object level _ (lit "title", JStr (title b))). now left.
  - assert (A : forall (k : pystr) (l : list pystr),
               In (k, JArr (map JStr l))
                  (match model_dump b with JObj d => d | _ => [] end) ->
               In s l ->
               part (encode_basestring s) (enc level (model_dump b))).
    { intros k l Hk Hs.
      apply part_trans with (u := enc (S level) (JArr (map JStr l))).
      - apply (@part_array (S level) _ (JStr s)). now apply in_map.
      - apply (@part_object level _ (k, JArr (map JStr l))). exact Hk. }
    apply in_app_or in Hin. destruct Hin as [Hin|Hin];
      [|apply in_app_or in Hin; destruct Hin as [Hin|Hin]].
    + apply (A (lit "author_names") (author_names b)); [simpl; tauto | exact Hin].
    + apply (A (lit "publisher") (publisher b)); [simpl; tauto | exact Hin].
    + apply (A (lit "language") (language b)); [simpl; tauto | exact Hin].
Qed.

End FormatParts.

Section FormatMore.
Context `{PyRuntime}.

Lemma literal_ok_ascii (P : codepoint -> Prop) (s : pystr) :
  (forall c, 32 <= c -> c < 128 -> P c) ->
  Forall (fun c => c < 128) s -> literal_ok P s.
Proof.
  intros HP Hs c Hin Hc. apply HP; [exact Hc|].
  rewrite Forall_forall in Hs. now apply Hs.
Qed.

Lemma Forall_format_text (P : codepoint -> Prop) (self : JsonFormatter)
    (books : list Book) :
  P 10 -> (forall c, 32 <= c -> c < 128 -> P c) ->
  (forall b s, In b books -> In s (texts b) -> literal_ok P s) ->
  Forall P (format_text self books).
Proof.
  intros P10 Pa Ht. unfold format_text.
  apply Forall_array; try assumption. intros v Hv.
  apply in_map_iff in Hv. destruct Hv as [b [<- Hb]].
  assert (Hs : forall s, In s (texts b) -> literal_ok P s)
    by (intros s; now apply Ht).
  assert (Hl : forall level l, (forall s, In s l -> In s (texts b)) ->
               Forall P (json_text (repeat 32 (Z.to_nat (indent self)))
                           level (JArr (map JStr l)))).
  { intros level l Hin. apply Forall_array; try assumption. intros v Hv.
    apply in_map_iff in Hv. destruct Hv as [s [<- Hsl]].
    apply Forall_encode_basestring; try assumption. apply Hs. now apply Hin. }
  assert (Ho : forall level x,
               Forall P (json_text (repeat 32 (Z.to_nat (indent self)))
                           level (dump_optional_int x))).
  { intros level [z|]; [now apply Forall_decimal|].
    change (Forall P [110; 117; 108; 108]).
    repeat (apply Forall_cons; [apply Pa; lia|]). apply Forall_nil. }
  assert (Hk : forall k : string, Forall (fun c => c < 128) (lit k) ->
               literal_ok P (lit k))
    by (intros k; now apply literal_ok_ascii).
  unfold model_dump. apply Forall_object; try assumption.
  intros item Hin. unfold texts in *.
  repeat (destruct Hin as [<-|Hin]); try destruct Hin; cbn [fst snd]; split;
    try (apply Hk; repeat constructor);
    try apply Ho;
    try (apply Hl; intros s Hin; simpl; rewrite !in_app_iff; tauto).
  apply Forall_encode_basestring; try assumption. apply Hs. now left.
Qed.

End FormatMore.

Section FormatTheorems.
Context `{PyRuntime}.

Lemma part_format_text (self : JsonFormatter) (books : list Book) (b : Book)
    (s : pystr) :
  In b books -> In s (texts b) ->
  part (encode_basestring s) (format_text self books).
Proof.
  intros Hb Hs. unfold format_text.
  apply part_trans
    with (u := json_text (repeat 32 (Z.to_nat (indent self))) 1
                 (model_dump b)).
  - now apply part_text_model_dump.
  - apply part_array. now apply in_map.
Qed.

Lemma flat_map_escape_plain (s : pystr) :
  (forall c, In c s -> 32 <= c /\ c <> 34 /\ c <> 92) ->
  flat_map escape_char s = s.
Proof.
  induction s as [|a s IH]; intros Hs; [reflexivity|].
  cbn [flat_map]. rewrite IH by (intros c Hc; apply Hs; now right).
  destruct (Hs a (or_introl eq_refl)) as [H32 [H34 H92]].
  unfold escape_char.
  repeat match goal with
         | |- context [a =? ?k] =>
             replace (a =? k) with false by (symmetry; apply N.eqb_neq; lia)
         end.
  replace (a <? 32) with false by (symmetry; apply N.ltb_ge; lia).
  reflexivity.
Qed.

Lemma format_text_reads_back (self : JsonFormatter) (books : list Book) :
  forallb ints_fit books = true ->
  (data <- loads (format_text self books) ;;
   validate_list validate_Book data) = Some books.
Proof.
  intros Hb. rewrite loads_format_text by exact Hb. cbn [validate_list].
  apply validate_each_model_dump.
Qed.

(** X11. When [format] gives a text, which it does for every list whose
    integer fields have at most 4300 digits, the text read with
    [json.loads] and validated as a list of [Book] is the list of records
    it was made from, whatever the indent. *)
Theorem format_reads_back_as_records :
  forall (self : JsonFormatter) (books : list Book),
    (forall text,
       format self books = Some text ->
       (data <- loads text ;; validate_list validate_Book data) = Some books)
    /\ (forallb ints_fit books = true ->
        exists text, format self books = Some text).
Proof.
  intros self books. split.
  - intros text E. apply format_Some in E. destruct E as [Hb ->].
    now apply format_text_reads_back.
  - intros Hb. exists (format_text self books). now apply format_Some.
Qed.

(** X12. Two lists of records with the same text are the same list, also
    when the two texts were made with different indents. *)
Theorem format_injective :
  forall (self1 self2 : JsonFormatter) (books1 books2 : list Book)
         (text : pystr),
    format self1 books1 = Some text -> format self2 books2 = Some text ->
    books1 = books2.
Proof.
  intros self1 self2 books1 books2 text E1 E2.
  apply format_Some in E1. destruct E1 as [H1 T1].
  apply format_Some in E2. destruct E2 as [H2 T2].
  pose proof (format_text_reads_back self1 books1 H1) as R1.
  pose proof (format_text_reads_back self2 books2 H2) as R2.
  rewrite <- T1 in R1. rewrite <- T2 in R2. rewrite R1 in R2.
  now injection R2.
Qed.

(** X13. Every character of the text is a line feed, a printable ASCII
    character, or a character from 128 on that stands in a text field of
    one of the records: control characters are never written raw, and
    characters outside ASCII only come from the records. *)
Theorem format_characters :
  forall (self : JsonFormatter) (books : list Book) (text : pystr),
    format self books = Some text ->
    Forall (fun c => c = 10 \/ (32 <= c /\ c < 128)
                     \/ (128 <= c /\ exists b s,
                           In b books /\ In s (texts b) /\ In c s))
           text.
Proof.
  intros self books text E. apply format_Some in E. destruct E as [_ ->].
  apply Forall_format_text.
  - now left.
  - intros c H1 H2. right. now left.
  - intros b s Hb Hs c Hc H32. destruct (N.lt_ge_cases c 128) as [Hlt|Hge].
    + right. now left.
    + right. right. split; [exact Hge|]. now exists b, s.
Qed.

(** X14. Each text field of each record stands in the text between double
    quotes in its escaped form; a field without control characters, quotes
    and backslashes stands there character for character, characters
    outside ASCII included. *)
Theorem format_contains_fields :
  forall (self : JsonFormatter) (books : list Book) (text : pystr)
         (b : Book) (s : pystr),
    format self books = Some text ->
    In b books -> In s (texts b) ->
    str_contains text (encode_basestring s) = true
    /\ ((forall c, In c s -> 32 <= c /\ c <> 34 /\ c <> 92) ->
        str_contains text (34 :: s ++ [34]) = true).
Proof.
  intros self books text b s E Hb Hs.
  apply format_Some in E. destruct E as [_ ->].
  assert (C : str_contains (format_text self books) (encode_basestring s)
              = true)
    by (apply str_contains_spec; now apply part_format_text with (b := b)).
  split; [exact C|]. intros Hplain. unfold encode_basestring in C.
  now rewrite (flat_map_escape_plain _ Hplain) in C.
Qed.

End FormatTheorems.

(** ** Writing the file *)



Lemma set_file_twice (fs : files) (path : pystr) (b1 b2 : list N) (p : pystr) :
  set_file (set_file fs path b1) path b2 p = set_file fs path b2 p.
Proof. unfold set_file. now destruct (str_eqb p path). Qed.






Section SavingProps.
Context `{PyRuntime}.



Lemma write_text_twice (h : host) (fs : files) (path data1 data2 : pystr) :
  snd (write_text h (fst (write_text h fs path data1)) path data2)
  = snd (write_text h fs path data2)
  /\ forall p,
       fst (write_text h (fst (write_text h fs path data1)) path data2) p
       = fst (write_text h fs path data2) p.
Proof.
  unfold write_text. destruct (openable h path); [|split; reflexivity].
  destruct (utf8_encode (translate_newlines h data1));
    destruct (utf8_encode (translate_newlines h data2)); cbn [fst snd];
    (split; [reflexivity | intros p; apply set_file_twice]).
Qed.

(** X15. Whatever formatter the fetcher has: when [format] gives a text
    for the second list, saving it to the same path leaves the files, and
    the outcome, that saving the second list alone leaves, also when the
    first saving failed; when [format] raises for a list, saving it raises
    and leaves the files as they were, so a file saved before keeps its
    content; and when the path cannot be opened, saving leaves the files
    as they were and raises [OSError], unless [format] raised before. *)
Theorem save_books_replaces :
  forall (self : BookFetcher) (books1 books2 : list Book) (path : pystr)
         (h : host) (fs : files),
    (BookFormatter.format (formatter self) books2 <> None ->
     snd (save_books self books2 path h
            (fst (save_books self books1 path h fs)))
     = snd (save_books self books2 path h fs)
     /\ forall p,
          fst (save_books self books2 path h
                 (fst (save_books self books1 path h fs))) p
          = fst (save_books self books2 path h fs) p)
    /\ (BookFormatter.format (formatter self) books2 = None ->
        save_books self books2 path h
          (fst (save_books self books1 path h fs))
        = (fst (save_books self books1 path h fs), Some FormatRaised))
    /\ (openable h path = false ->
        save_books self books1 path h fs
        = (fs, Some match BookFormatter.format (formatter self) books1 with
                    | Some _ => OSError
                    | None => FormatRaised
                    end)).
Proof.
  intros self books1 books2 path h fs.
  unfold save_books, BookFormatter.write_to_file.
  split; [|split].
  - destruct (BookFormatter.format (formatter self) books2) as [text2|];
      [intros _ | intros F; now destruct F].
    destruct (BookFormatter.format (formatter self) books1) as [text1|].
    + apply write_text_twice.
    + cbn [fst snd]. now split.
  - now intros ->.
  - intros Hno.
    destruct (BookFormatter.format (formatter self) books1) as [text1|];
      [|reflexivity].
    unfold write_text. now rewrite Hno.
Qed.


End SavingProps.

(** ** main *)

Section MainProps.
Context `{PyRuntime}.

(** X17. When the fetch raises, [main] ends with that exception after its
    first line of output and the one request: nothing is filtered and no
    file is opened, so the files are as they were. *)
Theorem main_stops_when_fetch_raises :
  forall (h : host) (srv : server) (fs : files) (e : exception),
    snd (fetch_books srv (lit "python programming") 50) = Raise e ->
    raised (main h srv fs) = Some (FetchRaised e)
    /\ stdout (main h srv fs) = [lit "Fetching books from Open Library API..."]
    /\ requests (main h srv fs)
       = fst (fetch_books srv (lit "python programming") 50)
    /\ files_after (main h srv fs) = fs.
Proof.
  intros h srv fs e He. unfold main.
  destruct (fetch_books srv (lit "python programming") 50) as [calls r].
  simpl in He. subst r. repeat split.
Qed.


(** X19. The line "Results written to filtered_books.json" is printed
    exactly when [main] ends without an exception. *)
Theorem main_reports_success_only :
  forall (h : host) (srv : server) (fs : files),
    In (lit "Results written to filtered_books.json") (stdout (main h srv fs))
    <-> raised (main h srv fs) = None.
Proof.
  intros h srv fs. unfold main.
  destruct (fetch_books srv (lit "python programming") 50) as [calls [books|e]].
  - destruct (save_books _ _ _ h fs) as [fs' [e|]]; cbn [stdout raised].
    + split; [|discriminate]. rewrite !in_app_iff. simpl.
      intros [[[F|[]]|[F|[]]]|[F|[]]]; discriminate.
    + split; [reflexivity|]. intros _. rewrite !in_app_iff. right. now left.
  - cbn [stdout raised]. split; [|discriminate].
    simpl. intros [F|[]]; discriminate.
Qed.

End MainProps.

(** ** The further properties at concrete inputs *)

Lemma fetch_books_transport_failure_witness :
  server_down BASE_URL (lit "python programming") 50%Z = None
  /\ snd (fetch_books server_down (lit "python programming") 50%Z)
     = Raise TransportError.
Proof.
  split; [reflexivity|].
  now rewrite (@fetch_books_transport_failure ascii_runtime server_down
                 (lit "python programming") 50%Z eq_refl).
Defined.

Lemma fetch_books_body_not_json_witness :
  server_html BASE_URL (lit "python programming") 50%Z
  = Some (mkHttp 200%Z None)
  /\ is_success 200 = true
  /\ snd (fetch_books server_html (lit "python programming") 50%Z)
     = Raise JSONDecodeError.
Proof.
  split; [reflexivity|]. split; [reflexivity|].
  now rewrite (@fetch_books_body_not_json ascii_runtime server_html
                 (lit "python programming") 50%Z 200%Z eq_refl eq_refl).
Defined.

Lemma sequence_field_must_be_array_witness :
  dict_get raw_null_publisher (lit "publisher") = Some JNull
  /\ Book_model_validate (JObj raw_null_publisher) = Raise ValidationError.
Proof.
  split; [reflexivity|].
  apply (@sequence_field_must_be_array ascii_runtime raw_null_publisher
           (lit "publisher") JNull); [tauto | reflexivity | discriminate].
Defined.

Lemma format_reads_back_as_records_witness :
  format (H := ascii_runtime) JsonFormatter_default [dune] = Some dune_json
  /\ (data <- loads (H := ascii_runtime) dune_json ;;
      validate_list (validate_Book (H := ascii_runtime)) data) = Some [dune].
Proof.
  split; [exact format_dune|].
  exact (proj1 (@format_reads_back_as_records ascii_runtime
                  JsonFormatter_default [dune]) dune_json format_dune).
Defined.

Lemma format_injective_witness :
  format (H := ascii_runtime) JsonFormatter_default [dune] = Some dune_json
  /\ [dune] = [dune].
Proof.
  split; [exact format_dune|].
  exact (@format_injective ascii_runtime JsonFormatter_default
           JsonFormatter_default [dune] [dune] dune_json
           format_dune format_dune).
Defined.

Lemma format_characters_witness :
  format (H := ascii_runtime) JsonFormatter_default [dune] = Some dune_json
  /\ Forall (fun c => c = 10 \/ (32 <= c /\ c < 128)
                      \/ (128 <= c /\ exists b s,
                            In b [dune] /\ In s (texts b) /\ In c s))
            dune_json.
Proof.
  split; [exact format_dune|].
  exact (@format_characters ascii_runtime JsonFormatter_default [dune]
           dune_json format_dune).
Defined.

Lemma format_contains_fields_witness :
  format (H := ascii_runtime) JsonFormatter_default [dune] = Some dune_json
  /\ In dune [dune] /\ In (lit "Frank Herbert") (texts dune)
  /\ str_contains dune_json (quoted "Frank Herbert") = true.
Proof.
  split; [exact format_dune|]. split; [now left|]. split; [right; now left|].
  destruct (@format_contains_fields ascii_runtime JsonFormatter_default
              [dune] dune_json dune (lit "Frank Herbert")) as [C _];
    [exact format_dune | now left | right; now left | exact C].
Defined.



(** Saving [far_future] after [dune] with the default formatter raises
    and leaves the file with the text of [dune]. *)
Lemma save_books_replaces_witness :
  let fetcher := BookFetcher_init (H := ascii_runtime) None in
  let saved :=
    fst (save_books fetcher [dune] (lit "books.json") posix no_files) in
  save_books fetcher [far_future] (lit "books.json") posix saved
  = (saved, Some FormatRaised)
  /\ saved (lit "books.json")
     = utf8_encode (translate_newlines posix dune_json).
Proof.
  intros fetcher saved. split.
  - assert (F : BookFormatter.format (formatter fetcher) [far_future] = None).
    { apply (proj2 (format_None (H := ascii_runtime) JsonFormatter_default
                      [far_future])).
      exact far_future_does_not_fit. }
    exact (proj1 (proj2 (@save_books_replaces fetcher [dune] [far_future]
                           (lit "books.json") posix no_files)) F).
  - vm_compute. reflexivity.
Defined.

Lemma main_stops_when_fetch_raises_witness :
  snd (fetch_books (H := ascii_runtime) server_500 (lit "python programming") 50)
  = Raise (HTTPStatusError 500)
  /\ stdout (main (H := ascii_runtime) posix server_500 no_files)
     = [lit "Fetching books from Open Library API..."]
  /\ files_after (main (H := ascii_runtime) posix server_500 no_files) = no_files.
Proof.
  split; [reflexivity|].
  destruct (@main_stops_when_fetch_raises ascii_runtime posix server_500
              no_files (HTTPStatusError 500) eq_refl) as (_ & Ho & _ & Hf).
  now split.
Defined.

